(** * Energy: spreadsheet ingestion and mix aggregation

    A shallow embedding of the two programs of the repository:

    - [Mix/createDB.py]: [ReadExcel] reads a spreadsheet and coerces the ten
      production columns to floats, [UpdateSQLite] drops, creates and fills
      a table of a SQLite database;
    - [MixPlot/mixPlot.py]: [aggregate_annual], [percent_mix] and the data
      part of the two dashboard callbacks [update_plot] and [update_pie].

    Numbers.  The program computes on IEEE-754 binary64 values (pandas
    [float64]).  They are modelled by [spec_float] with the operations of
    [SpecFloat] at precision 53; NaN, the infinities and the two zeros are
    those of the standard.  The table functions are written once, over an
    interface [Number], and read at two instances: [float] (what the code
    computes) and [Qc] (exact rationals, used for the algebraic identities
    that floats only satisfy up to rounding). *)

From Stdlib Require Import ZArith QArith Qcanon Lia Bool Ascii String.
From Stdlib Require Import Floats.SpecFloat.
From stdpp Require Import gmap strings list fin_maps sorting pretty.

Local Open Scope Z_scope.

(** ** Numbers *)

Class Number (A : Type) := {
  zero : A;
  hundred : A;
  add : A -> A -> A;
  mul : A -> A -> A;
  div : A -> A -> A;
  (** pandas' [isna]: the missing value that [sum] and [fillna] look for. *)
  isna : A -> bool
}.

Module Float64.

Definition prec : Z := 53.
Definition emax : Z := 1024.

Definition float : Type := spec_float.

Definition of_Z (z : Z) : float := binary_normalize prec emax z 0 false.

Definition pos_zero : float := S754_zero false.
Definition neg_zero : float := S754_zero true.
Definition nan : float := S754_nan.
Definition pos_inf : float := S754_infinity false.
Definition neg_inf : float := S754_infinity true.

Definition fadd : float -> float -> float := SFadd prec emax.
Definition fmul : float -> float -> float := SFmul prec emax.
Definition fdiv : float -> float -> float := SFdiv prec emax.
Definition fltb : float -> float -> bool := SFltb.
Definition feqb : float -> float -> bool := SFeqb.

Definition is_nan (x : float) : bool :=
    match x with S754_nan => true | _ => false end.

Definition is_zero (x : float) : bool :=
    match x with S754_zero _ => true | _ => false end.

  (** [numpy.isfinite] *)
Definition is_finite (x : float) : bool :=
    match x with S754_zero _ | S754_finite _ _ _ => true | _ => false end.

End Float64.

Import Float64.

#[export] Instance float_number : Number float := {|
  zero := pos_zero;
  hundred := of_Z 100;
  add := fadd;
  mul := fmul;
  div := fdiv;
  isna := is_nan
|}.

#[export] Instance Qc_number : Number Qc := {|
  zero := 0%Qc;
  hundred := Q2Qc 100;
  add := Qcplus;
  mul := Qcmult;
  div := Qcdiv;
  isna := fun _ => false
|}.

(** ** Data frames *)

(** A timestamp, to the day. *)
Record date := { year : Z; month : Z; day : Z }.

(** A row of a frame whose columns are ["Date"] and numeric columns. *)
Record row (A : Type) := { Date : date; cells : list A }.
Arguments Date {A} _.
Arguments cells {A} _.

(** [columns] names the numeric columns, in the order of [cells]. *)
Record DataFrame (A : Type) := { columns : list string; rows : list (row A) }.
Arguments columns {A} _.
Arguments rows {A} _.

(** ** The outside world: files, databases, the terminal *)

#[export] Instance date_eq_dec : EqDecision date.
Proof. solve_decision. Defined.

(** A spreadsheet cell as [pd.read_excel] returns it: a number (an empty
    cell is NaN) or a text. *)
Inductive cell :=
  | CNum (x : float)
  | CText (s : string).

(** A row of the raw frame: the first column, then the others. *)
Record sheet_row := { label : date; values : list cell }.

(** What [pd.read_excel(file_name, sheet_name=0, skiprows=[11], header=10)]
    returns: the name of the first column, the names of the others, and
    the rows.  The reader makes the names distinct. *)
Record sheet := {
  first_header : string;
  headers : list string;
  body : list sheet_row
}.

(** A table of a SQLite database. *)
Record table := {
  schema : list string;
  primary_key : bool;   (* is "Date" declared PRIMARY KEY? *)
  records : list (row float)
}.

Inductive statement :=
  | DropTableIfExists (name : string)
  | CreateTable (name : string) (cols : list string) (pk : bool).

Inductive event :=
  | EvConnect (db_name : string)
  | EvExecute (sql : statement)
  | EvInsert (name : string) (count : nat)
  | EvCommit
  | EvClose.

Record world := {
  files : gmap string sheet;
  databases : gmap string (gmap string table);
  stdout : list string;
  db_log : list event
}.

Inductive exn :=
  | FileNotFoundError
  | KeyError (key : string)
  | OperationalError (msg : string)
  | IntegrityError (msg : string)
  | DatabaseError (msg : string).

(** How a computation ends: with a value, with an exception that nobody
    caught, or in [sys.exit]. *)
Inductive result (X : Type) :=
  | Ok (x : X)
  | Raise (e : exn)
  | Exit (code : Z).
Arguments Ok {X} _.
Arguments Raise {X} _.
Arguments Exit {X} _.

Module Py.

Definition M (X : Type) : Type := world -> result X * world.

Definition ret {X} (x : X) : M X := fun w => (Ok x, w).

Definition bind {X Y} (m : M X) (k : X -> M Y) : M Y :=
  fun w =>
    match m w with
    | (Ok x, w') => k x w'
    | (Raise e, w') => (Raise e, w')
    | (Exit c, w') => (Exit c, w')
    end.

Definition raise {X} (e : exn) : M X := fun w => (Raise e, w).

(** [sys.exit(code)] *)
Definition sys_exit {X} (code : Z) : M X := fun w => (Exit code, w).

(** [try: m  except: handler] *)
Definition try_except {X} (m : M X) (handler : exn -> M X) : M X :=
  fun w =>
    match m w with
    | (Raise e, w') => handler e w'
    | r => r
    end.

(** The three ways in which the program changes the world. *)
Definition add_line (line : string) (w : world) : world :=
  {| files := files w; databases := databases w;
     stdout := stdout w ++ [line]; db_log := db_log w |}.

Definition add_event (ev : event) (w : world) : world :=
  {| files := files w; databases := databases w;
     stdout := stdout w; db_log := db_log w ++ [ev] |}.

Definition set_database (db_name : string) (db : gmap string table) (w : world) : world :=
  {| files := files w; databases := <[db_name := db]> (databases w);
     stdout := stdout w; db_log := db_log w |}.

(** The tables of a database; a database that does not exist has none. *)
Definition database_of (db_name : string) (w : world) : gmap string table :=
  default ∅ (databases w !! db_name).

Definition print (line : string) : M unit := fun w => (Ok tt, add_line line w).

Definition emit (ev : event) : M unit := fun w => (Ok tt, add_event ev w).

Definition get_database (db_name : string) : M (gmap string table) :=
  fun w => (Ok (database_of db_name w), w).

Definition put_database (db_name : string) (db : gmap string table) : M unit :=
  fun w => (Ok tt, set_database db_name db w).

End Py.

Declare Scope py_scope.
Delimit Scope py_scope with py.
Notation "x <- m ;; k" := (Py.bind m (fun x => k))
  (at level 100, m at next level, right associativity) : py_scope.
Notation "m ;;; k" := (Py.bind m (fun _ => k))
  (at level 100, right associativity) : py_scope.

(** ** The libraries: pandas' reader and writer, sqlite3 *)

Module Lib.
Import Py.
Local Open Scope py_scope.

(** [pd.read_excel]: the file system holds, for each path that exists, the
    frame that the reader returns for it. *)
Definition read_excel (file_name : string) : M sheet :=
  fun w =>
    match files w !! file_name with
    | Some s => (Ok s, w)
    | None => (Raise FileNotFoundError, w)
    end.

(** [sqlite3.connect]: opens the database, creating it when missing. *)
Definition connect (db_name : string) : M unit :=
  emit (EvConnect db_name) ;;;
  db <- get_database db_name ;;
  put_database db_name db.

(** SQLite compares the names of tables without regard to the case of the
    ASCII letters: a statement that names [Mix] works on a table stored as
    [mix]. *)
Definition lower (c : ascii) : ascii :=
  let n := N_of_ascii c in
  if ((65 <=? n) && (n <=? 90))%N then ascii_of_N (n + 32) else c.

Fixpoint fold_case (s : string) : string :=
  match s with
  | EmptyString => EmptyString
  | String c s' => String (lower c) (fold_case s')
  end.

(** The table that a statement naming [name] works on, with its name as
    stored.  A database of SQLite never holds two tables whose names are
    equal up to case; the table of the very name is looked at first. *)
Definition find_table (name : string) (db : gmap string table) : option (string * table) :=
  match db !! name with
  | Some t => Some (name, t)
  | None =>
      snd <$> list_find (fun kt : string * table => fold_case kt.1 = fold_case name)
                        (map_to_list db)
  end.

(** The tables that are left by [DROP TABLE IF EXISTS name]. *)
Definition drop_table (name : string) (db : gmap string table) : gmap string table :=
  match find_table name db with
  | Some (stored, _) => delete stored db
  | None => db
  end.

Definition table_exists_msg (name : string) : string :=
  "table " +:+ name +:+ " already exists".

(** [cursor.execute] of a schema statement.  Such a statement runs outside
    a transaction: its effect is in the database at once. *)
Definition execute (db_name : string) (sql : statement) : M unit :=
  emit (EvExecute sql) ;;;
  db <- get_database db_name ;;
  match sql with
  | DropTableIfExists name => put_database db_name (drop_table name db)
  | CreateTable name cols pk =>
      match find_table name db with
      | Some _ => raise (OperationalError (table_exists_msg name))
      | None =>
          put_database db_name
            (<[name := {| schema := cols; primary_key := pk; records := [] |}]> db)
      end
  end.

(** A column of type REAL gives back every float as it was written, but for
    the negative zero, which comes back as 0.0.  (NaN is written as NULL
    and read as NaN.) *)
Definition store_real (v : float) : float := if is_zero v then pos_zero else v.

Definition store_row (r : row float) : row float :=
  {| Date := Date r; cells := map store_real (cells r) |}.

(** The name in double quotes, as pandas writes it in its statements. *)
Definition quoted (name : string) : string :=
  String "034" (name +:+ String "034" EmptyString).

(** [DataFrame.to_sql(name, conn, if_exists="append", index=False)].
    pandas asks [sqlite_master] for a table of exactly this name.  If there
    is one, the rows are added to it and committed; a repeated key aborts
    the insertion as a whole, with sqlite3's [IntegrityError] (pandas 2
    lets it through; pandas 3 raises its own [DatabaseError] from it).  If
    there is none, pandas creates the table from the frame, which SQLite
    refuses when a table of this name up to case exists. *)
Definition to_sql (db_name name : string) (df : DataFrame float) : M unit :=
  emit (EvInsert name (length (rows df))) ;;;
  db <- get_database db_name ;;
  match db !! name with
  | None =>
      match find_table name db with
      | Some _ => raise (OperationalError (table_exists_msg (quoted name)))
      | None =>
          put_database db_name
            (<[name := {| schema := "Date" :: columns df; primary_key := false;
                          records := map store_row (rows df) |}]> db)
      end
  | Some t =>
      if primary_key t && negb (bool_decide (NoDup (map Date (records t ++ rows df))))
      then raise (IntegrityError ("UNIQUE constraint failed: " +:+ name +:+ ".Date"))
      else
        put_database db_name
          (<[name := {| schema := schema t; primary_key := primary_key t;
                        records := records t ++ map store_row (rows df) |}]> db)
  end.

(** [pd.read_sql_query("SELECT * FROM name", conn, parse_dates=["Date"])]:
    the table is found whatever the case of its stored name; pandas wraps
    sqlite3's error in its [DatabaseError]. *)
Definition read_sql_query (db_name name : string) : M (DataFrame float) :=
  db <- get_database db_name ;;
  match find_table name db with
  | None =>
      raise (DatabaseError ("Execution failed on sql 'SELECT * FROM " +:+ name
                            +:+ "': no such table: " +:+ name))
  | Some (_, t) => ret {| columns := tail (schema t); rows := records t |}
  end.

End Lib.

(** ** Mix/createDB.py *)

Module ReadExcel.
Import Py Lib.
Local Open Scope py_scope.

(** The first column is renamed to "Date". *)
Definition _read_excel_file (file_name : string) : M sheet :=
  try_except
    (df <- read_excel file_name ;;
     ret {| first_header := "Date"; headers := headers df; body := body df |})
    (fun e =>
       match e with
       | FileNotFoundError =>
           print ("Error: The file '" +:+ file_name +:+ "' was not found.") ;;;
           sys_exit 1
       | _ => raise e
       end).

Definition columns_mapping : list (string * string) :=
  [ ("Coal Production", "Coal");
    ("Natural Gas (Dry) Production", "GasDry");
    ("Natural Gas Plant Liquids Production", "GasLiquid");
    ("Crude Oil Production", "CrudeOil");
    ("Nuclear Electric Power Production", "Nuclear");
    ("Hydroelectric Power Production", "Hydro");
    ("Geothermal Energy Production", "Geothermal");
    ("Solar Energy Production", "Solar");
    ("Wind Energy Production", "Wind");
    ("Biomass Energy Production", "Biomass") ]%string.

Section Coercion.

(** The number that [pd.to_numeric] reads in a text, if it reads one. *)
Variable parse_float : string -> option float.

(** [pd.to_numeric(_, errors="coerce")], cell by cell: a text in which no
    number is read becomes NaN. *)
Definition to_numeric (c : cell) : float :=
  match c with
  | CNum x => x
  | CText s => default nan (parse_float s)
  end.

(** [.fillna(d)] *)
Definition fillna (d x : float) : float := if is_nan x then d else x.

(** The body of the loop over the columns other than "Date". *)
Definition coerce (c : cell) : float := fillna pos_zero (to_numeric c).

(** [data_frame[["Date"] + list(columns_mapping.keys())]]: the position of
    every key among the headers, or the first key that is missing (the
    [KeyError]). *)
Fixpoint select (hs : list string) (keys : list string) : string + list nat :=
  match keys with
  | [] => inr []
  | k :: ks =>
      match list_find (fun h => h = k) hs with
      | None => inl k
      | Some (j, _) =>
          match select hs ks with
          | inl k' => inl k'
          | inr js => inr (j :: js)
          end
      end
  end.

Definition remap_row (js : list nat) (r : sheet_row) : row float :=
  {| Date := label r;
     cells := map (fun j => coerce (default (CNum nan) (values r !! j))) js |}.

Definition _remap_dataFrame (data_frame : sheet) : M (DataFrame float) :=
  match select (headers data_frame) (map fst columns_mapping) with
  | inl k => raise (KeyError k)
  | inr js =>
      ret {| columns := map snd columns_mapping;
             rows := map (remap_row js) (body data_frame) |}
  end.

Definition __init__ (file_name : string) : M (DataFrame float) :=
  df <- _read_excel_file file_name ;;
  _remap_dataFrame df.

End Coercion.
End ReadExcel.

Module UpdateSQLite.
Import Py Lib.
Local Open Scope py_scope.

Definition _drop_table (db_name : string) : M unit :=
  execute db_name (DropTableIfExists "Mix").

Definition _create_newTable (db_name : string) : M unit :=
  execute db_name
    (CreateTable "EnergyMix"
       ["Date"; "Coal"; "GasDry"; "GasLiquid"; "CrudeOil"; "Nuclear";
        "Hydro"; "Geothermal"; "Solar"; "Wind"; "Biomass"]%string
       true).

Definition _insert_data (db_name : string) (df_subset : DataFrame float) : M unit :=
  to_sql db_name "EnergyMix" df_subset ;;;
  print "SQLite table 'EnergyMix' updated successfully.".

Section Ingestion.
Variable parse_float : string -> option float.

(** [super().__init__(file_name)] comes first, then the connection and the
    three steps on the table. *)
Definition __init__ (file_name db_name : string) : M unit :=
  df_subset <- ReadExcel.__init__ parse_float file_name ;;
  connect db_name ;;;
  _drop_table db_name ;;;
  _create_newTable db_name ;;;
  _insert_data db_name df_subset ;;;
  emit EvCommit ;;;
  emit EvClose.

Definition main : M unit := __init__ "Mix.xlsx" "Energy.db".

End Ingestion.
End UpdateSQLite.

(** ** MixPlot/mixPlot.py *)

Module MixPlot.
Section Transforms.
Context {A : Type} `{Number A}.

(** pandas' [sum] (default [skipna=True], [min_count=0]): missing values
    are skipped and the others are added, starting at zero.  In exact
    arithmetic this is the sum.  On floats the values are added here from
    left to right, while pandas rounds in its own way (its grouped sum
    carries a compensation, its sum along a row may add in pairs): the two
    agree when the sums are exact in every order, as for few small whole
    numbers, and can differ in the last bits otherwise.  What is stated
    below about the value of a sum of several numbers is therefore stated
    in exact arithmetic, or on such floats. *)
Definition nanadd (acc v : A) : A := if isna v then acc else add acc v.

Definition nansum (vs : list A) : A := fold_left nanadd vs zero.

(** *** aggregate_annual *)

(** The group keys of [groupby("Year")]: the years present, each once, in
    ascending order ([sort=True]). *)
Fixpoint insert_year (y : Z) (ys : list Z) : list Z :=
  match ys with
  | [] => [y]
  | z :: zs =>
      if y <? z then y :: z :: zs
      else if y =? z then z :: zs
      else z :: insert_year y zs
  end.

Definition group_keys (rs : list (row A)) : list Z :=
  foldr (fun r ys => insert_year (year (Date r)) ys) [] rs.

Definition group_rows (y : Z) (rs : list (row A)) : list (row A) :=
  filter (fun r => year (Date r) = y) rs.

(** The values of column [j], from the first row to the last. *)
Definition column (j : nat) (rs : list (row A)) : list A :=
  omap (fun r => cells r !! j) rs.

(** [.sum(numeric_only=True)] of one group: column [j] of the result is
    the sum of column [j] over the rows of the group. *)
Definition column_sums (ncols : nat) (rs : list (row A)) : list A :=
  map (fun j => nansum (column j rs)) (seq 0 ncols).

(** [pd.to_datetime(year, format="%Y")] *)
Definition january_first (y : Z) : date := {| year := y; month := 1; day := 1 |}.

Definition annual_row (ncols : nat) (rs : list (row A)) (y : Z) : row A :=
  {| Date := january_first y; cells := column_sums ncols (group_rows y rs) |}.

(** The function also adds a "Year" column to its argument; every caller
    lets go of the argument afterwards, and the frame that is returned has
    the column removed.  The returned frame keeps the numeric columns in
    their order ("Date" moves last, which [cells] does not show). *)
Definition aggregate_annual (df : DataFrame A) : DataFrame A :=
  {| columns := columns df;
     rows := map (annual_row (length (columns df)) (rows df))
                 (group_keys (rows df)) |}.

(** *** percent_mix *)

(** [totals = df[numeric_cols].sum(axis=1)], then
    [df[col] / totals * 100] for every numeric column. *)
Definition percent_row (r : row A) : row A :=
  let total := nansum (cells r) in
  {| Date := Date r;
     cells := map (fun v => mul (div v total) hundred) (cells r) |}.

Definition percent_mix (df : DataFrame A) : DataFrame A :=
  {| columns := columns df; rows := map percent_row (rows df) |}.

(** *** update_plot *)

(** One line of the figure: [go.Scatter(x=df["Date"], y=df[col], name=col)]. *)
Record scatter := { name : string; x : list date; y : list A }.

Definition filter_years (start_year end_year : Z) (df : DataFrame A) : DataFrame A :=
  {| columns := columns df;
     rows := filter (fun r => start_year <= year (Date r) /\ year (Date r) <= end_year)
                    (rows df) |}.

(** The frame that [update_plot] draws, after its four conditional steps. *)
Definition plot_frame (time_res view_type : string) (year_range : Z * Z)
    (df_full : DataFrame A) : DataFrame A :=
  let df := filter_years (fst year_range) (snd year_range) df_full in
  let df := if String.eqb time_res "annual" then aggregate_annual df else df in
  let df := if String.eqb view_type "percent" then percent_mix df else df in
  let df := if String.eqb time_res "annual" then aggregate_annual df else df in
  let df := if String.eqb view_type "percent" then percent_mix df else df in
  df.

(** [df[col]]: the values of the column named [col], [None] for [KeyError]. *)
Definition get_column (col : string) (df : DataFrame A) : option (list A) :=
  match list_find (fun c => c = col) (columns df) with
  | Some (j, _) => Some (column j (rows df))
  | None => None
  end.

(** The callback, up to the data of its figure: no line when no source is
    selected, else one line per selected source, in the order of the
    selection (titles, colours and hover texts are left out). *)
Definition update_plot (sources : list string) (time_res view_type : string)
    (year_range : Z * Z) (df_full : DataFrame A) : option (list scatter) :=
  match sources with
  | [] => Some []
  | _ =>
      let df := plot_frame time_res view_type year_range df_full in
      mapM (fun col =>
              match get_column col df with
              | Some ys => Some {| name := col; x := map Date (rows df); y := ys |}
              | None => None
              end) sources
  end.

(** *** update_pie *)

(** [df_year.drop(columns=["Date", "Year"]).sum()]: a series that maps each
    column name to the sum of its column. *)
Definition column_totals (df_year : DataFrame A) : gmap string A :=
  list_to_map
    (zip (columns df_year) (column_sums (length (columns df_year)) (rows df_year))).

(** [totals.get(key, 0)] *)
Definition get (totals : gmap string A) (key : string) : A :=
  default zero (totals !! key).

Definition pie_data (totals : gmap string A) : list (string * A) :=
  [ ("Gas", add (get totals "GasDry") (get totals "GasLiquid"));
    ("Coal", get totals "Coal");
    ("Nuclear", get totals "Nuclear");
    ("Wind", get totals "Wind");
    ("Solar", get totals "Solar");
    ("All Others",
       add (add (get totals "Hydro") (get totals "Geothermal")) (get totals "Biomass"))
  ]%string.

(** The labels and values of the pie chart. *)
Definition update_pie (selected_year : Z) (df_full : DataFrame A) : list (string * A) :=
  let df_year :=
    {| columns := columns df_full;
       rows := filter (fun r => year (Date r) = selected_year) (rows df_full) |} in
  pie_data (column_totals df_year).

End Transforms.

(** *** load_data *)

Definition drop_column (col : string) (df : DataFrame float) : DataFrame float :=
  match list_find (fun c => c = col) (columns df) with
  | Some (j, _) =>
      {| columns := delete j (columns df);
         rows := map (fun r => {| Date := Date r; cells := delete j (cells r) |}) (rows df) |}
  | None => df
  end.

Definition load_data : Py.M (DataFrame float) :=
  (Lib.connect "Energy.db" ;;;
   df <- Lib.read_sql_query "Energy.db" "EnergyMix" ;;
   Py.emit EvClose ;;;
   Py.ret (drop_column "CrudeOil" df))%py.

(** *** create_app *)

(** [range(start, stop, step)] for a positive [step]. *)
Definition py_range (start stop step : Z) : list Z :=
  map (fun i => start + step * Z.of_nat i)
      (seq 0 (Z.to_nat ((stop - start + step - 1) / step))).

(** [{year: str(year) for year in range(lo, hi + 1, step)}] *)
Definition marks (lo hi step : Z) : list (Z * string) :=
  map (fun y => (y, pretty y)) (py_range lo hi step).

(** What [create_app] computes from the loaded frame and puts into the
    layout: the options of the source selector, the bounds and the marks of
    the two year sliders, and the initial values of the five controls. *)
Record layout := {
  energy_sources : list string;
  min_year : Z;
  max_year : Z;
  year_marks : list (Z * string);
  pie_marks : list (Z * string);
  source_value : list string;
  time_value : string;
  view_value : string;
  slider_value : Z * Z;
  pie_value : Z
}.

(** [df_full] is the result of [load_data()].  On a frame without rows the
    minimum of the years is NaN, which [range] refuses: the function
    raises, here [None]. *)
Definition create_app (df_full : DataFrame float) : option layout :=
  match map (fun r => year (Date r)) (rows df_full) with
  | [] => None
  | y :: ys =>
      let lo := foldr Z.min y ys in
      let hi := foldr Z.max y ys in
      Some {| energy_sources := columns df_full;
              min_year := lo;
              max_year := hi;
              year_marks := marks lo (hi + 1) 2;
              pie_marks := marks lo (hi + 1) 5;
              source_value := columns df_full;
              time_value := "monthly";
              view_value := "raw";
              slider_value := (lo, hi);
              pie_value := hi |}
  end.

End MixPlot.

(** ** Reference data *)

Module Samples.

(** The numeric columns of the dashboard's frame: the table's columns
    without ["Date"] and ["CrudeOil"]. *)
Definition energy_sources : list string :=
  ["Coal"; "GasDry"; "GasLiquid"; "Nuclear"; "Hydro"; "Geothermal"; "Solar";
   "Wind"; "Biomass"]%string.

Definition month_row (y m : Z) (vs : list float) : row float :=
  {| Date := {| year := y; month := m; day := 1 |}; cells := vs |}.

Definition frame (rs : list (row float)) : DataFrame float :=
  {| columns := energy_sources; rows := rs |}.

Definition zeros (n : nat) : list float := replicate n pos_zero.

(** A month in which nothing was produced (or nothing was available). *)
Definition silent_month : DataFrame float :=
  frame [month_row 2025 4 (zeros 9)].

(** One month: coal 1, dry gas 11. *)
Definition one_month : DataFrame float :=
  frame [month_row 1973 1 (of_Z 1 :: of_Z 11 :: zeros 7)].

(** Two months of 1973 with different mixes: 3 to 1, then 1 to 3. *)
Definition two_months : DataFrame float :=
  frame [month_row 1973 1 (of_Z 3 :: of_Z 1 :: zeros 7);
         month_row 1973 2 (of_Z 1 :: of_Z 3 :: zeros 7)].

(** The twelve months of 1973: coal [m], dry gas [2 m] in month [m]. *)
Definition year_1973 : DataFrame float :=
  frame (map (fun m => month_row 1973 m (of_Z m :: of_Z (2 * m) :: zeros 7))
             [1; 2; 3; 4; 5; 6; 7; 8; 9; 10; 11; 12]).

(** Two months of one year whose coal entries are the two infinities. *)
Definition opposite_infinities : DataFrame float :=
  frame [month_row 1973 1 (pos_inf :: zeros 8);
         month_row 1973 2 (neg_inf :: zeros 8)].

(** One year in one row: coal 20, dry gas 10, gas liquids 5, nuclear 8,
    hydro 1, geothermal 0, solar 2, wind 3, biomass 1. *)
Definition pie_year : DataFrame float :=
  frame [month_row 2024 1 (map of_Z [20; 10; 5; 8; 1; 0; 2; 3; 1])].

(** The same totals as a series. *)
Definition pie_totals : gmap string float :=
  list_to_map
    [("GasDry", of_Z 10); ("GasLiquid", of_Z 5); ("Coal", of_Z 20);
     ("Nuclear", of_Z 8); ("Wind", of_Z 3); ("Solar", of_Z 2);
     ("Hydro", of_Z 1); ("Geothermal", of_Z 0); ("Biomass", of_Z 1)]%string.

(** A small frame of exact numbers. *)
Definition exact_month : DataFrame Qc :=
  {| columns := ["Coal"; "GasDry"]%string;
     rows := [ {| Date := {| year := 1973; month := 1; day := 1 |};
                  cells := [Q2Qc 1; Q2Qc 3] |} ] |}.

(** A reader of plain decimal literals ("12", "-3", "12.34"), correctly
    rounded as long as the digits without the point stay below 2^53: the
    instance of [pd.to_numeric]'s reader at which the examples are run. *)
Definition digit_of (c : ascii) : option Z :=
  let n := Z.of_N (N_of_ascii c) in
  if (48 <=? n) && (n <=? 57) then Some (n - 48) else None.

Fixpoint read_digits (s : string) (acc : Z) (count : nat) : Z * nat * string :=
  match s with
  | String c s' =>
      match digit_of c with
      | Some d => read_digits s' (10 * acc + d) (S count)
      | None => (acc, count, s)
      end
  | EmptyString => (acc, count, s)
  end.

Definition parse_unsigned (s : string) : option float :=
  match read_digits s 0 0%nat with
  | (_, O, _) => None
  | (n, _, EmptyString) => Some (of_Z n)
  | (n, _, String "." s') =>
      match read_digits s' n 0%nat with
      | (_, O, _) => None
      | (m, k, EmptyString) => Some (fdiv (of_Z m) (of_Z (10 ^ Z.of_nat k)))
      | _ => None
      end
  | _ => None
  end.

Definition parse_decimal (s : string) : option float :=
  match s with
  | String "-" s' => option_map (SFopp) (parse_unsigned s')
  | _ => parse_unsigned s
  end.

(** One row of a sheet with the ten production columns, in the order of
    [columns_mapping], behind a first column named "Month". *)
Definition sheet_of (rs : list sheet_row) : sheet :=
  {| first_header := "Month";
     headers := map fst ReadExcel.columns_mapping;
     body := rs |}.

Definition january_1973 : date := {| year := 1973; month := 1; day := 1 |}.

(** Coal is "Not Available", dry gas is the text "12.34", the rest are
    numbers. *)
Definition text_sheet : sheet :=
  sheet_of [ {| label := january_1973;
                values := CText "Not Available" :: CText "12.34"
                          :: map (fun z => CNum (of_Z z)) [1; 2; 3; 4; 5; 6; 7; 8] |} ].

(** Coal is the number -1. *)
Definition negative_sheet : sheet :=
  sheet_of [ {| label := january_1973;
                values := map (fun z => CNum (of_Z z)) [-1; 2; 3; 4; 5; 6; 7; 8; 9; 10] |} ].

Definition plain_sheet : sheet :=
  sheet_of [ {| label := january_1973;
                values := map (fun z => CNum (of_Z z)) [1; 2; 3; 4; 5; 6; 7; 8; 9; 10] |} ].

Definition empty_world : world :=
  {| files := ∅; databases := ∅; stdout := []; db_log := [] |}.

(** A machine with the spreadsheet in place and no database yet. *)
Definition fresh_world : world :=
  {| files := {[ "Mix.xlsx"%string := plain_sheet ]}; databases := ∅;
     stdout := []; db_log := [] |}.

(** The same machine with the sheet whose coal entry is negative. *)
Definition negative_world : world :=
  {| files := {[ "Mix.xlsx"%string := negative_sheet ]}; databases := ∅;
     stdout := []; db_log := [] |}.

End Samples.

(** ** More reference data *)

Module Cases.
Import Samples.

(** The plain sheet without its coal column. *)
Definition short_sheet : sheet :=
  {| first_header := "Month";
     headers := tail (map fst ReadExcel.columns_mapping);
     body := [ {| label := january_1973;
                  values := map (fun z => CNum (of_Z z)) [2; 3; 4; 5; 6; 7; 8; 9; 10] |} ] |}.

Definition short_world : world :=
  {| files := {[ "Mix.xlsx"%string := short_sheet ]}; databases := ∅;
     stdout := []; db_log := [] |}.

(** The plain sheet with January 1973 twice. *)
Definition duplicate_sheet : sheet :=
  sheet_of [ {| label := january_1973;
                values := map (fun z => CNum (of_Z z)) [1; 2; 3; 4; 5; 6; 7; 8; 9; 10] |};
             {| label := january_1973;
                values := map (fun z => CNum (of_Z z)) [1; 2; 3; 4; 5; 6; 7; 8; 9; 10] |} ].

Definition duplicate_world : world :=
  {| files := {[ "Mix.xlsx"%string := duplicate_sheet ]}; databases := ∅;
     stdout := []; db_log := [] |}.

(** The machine after one ingestion of the plain sheet. *)
Definition loaded_world : world :=
  snd (UpdateSQLite.main parse_decimal fresh_world).


(** Months of 1973, 1974 and 1976. *)
Definition several_years : DataFrame float :=
  frame [month_row 1974 6 (of_Z 2 :: of_Z 2 :: zeros 7);
         month_row 1973 1 (of_Z 3 :: of_Z 1 :: zeros 7);
         month_row 1976 3 (of_Z 1 :: of_Z 3 :: zeros 7)].

(** Exact numbers: two months of 1973 and one of 1974, two columns. *)
Definition exact_years : DataFrame Qc :=
  {| columns := ["Coal"; "GasDry"]%string;
     rows := [ {| Date := {| year := 1973; month := 1; day := 1 |};
                  cells := [Q2Qc 1; Q2Qc 3] |};
               {| Date := {| year := 1974; month := 1; day := 1 |};
                  cells := [Q2Qc 5; Q2Qc 0] |};
               {| Date := {| year := 1973; month := 2; day := 1 |};
                  cells := [Q2Qc 2; Q2Qc 2] |} ] |}.

(** The plain sheet with a negative zero for coal. *)
Definition signed_zero_sheet : sheet :=
  sheet_of [ {| label := january_1973;
                values := CNum neg_zero
                          :: map (fun z => CNum (of_Z z)) [2; 3; 4; 5; 6; 7; 8; 9; 10] |} ].

(** A database made by hand: a table stored as "mix" and a table of
    prices. *)
Definition old_table : table :=
  {| schema := ["Date"; "Coal"]%string; primary_key := false;
     records := [month_row 1972 12 [of_Z 7]] |}.

Definition price_table : table :=
  {| schema := ["Date"; "Price"]%string; primary_key := false; records := [] |}.

Definition legacy_world : world :=
  {| files := {[ "Mix.xlsx"%string := signed_zero_sheet ]};
     databases :=
       {[ "Energy.db"%string :=
            {[ "mix"%string := old_table; "Prices"%string := price_table ]} ]};
     stdout := []; db_log := [] |}.

(** The frame that the sheet with the negative zero loads to, and its rows
    as the table gives them back. *)
Definition signed_zero_frame : DataFrame float :=
  {| columns := map snd ReadExcel.columns_mapping;
     rows := [ {| Date := january_1973;
                  cells := neg_zero :: map of_Z [2; 3; 4; 5; 6; 7; 8; 9; 10] |} ] |}.

Definition stored_rows : list (row float) :=
  [ {| Date := january_1973;
       cells := pos_zero :: map of_Z [2; 3; 4; 5; 6; 7; 8; 9; 10] |} ].

(** Months of 1973 and 1974, out of order: small whole numbers, whose sums
    are exact in whatever order they are added. *)
Definition mixed_years : DataFrame float :=
  frame [month_row 1974 6 (of_Z 2 :: of_Z 2 :: zeros 7);
         month_row 1973 1 (of_Z 3 :: of_Z 1 :: zeros 7);
         month_row 1973 2 (of_Z 1 :: of_Z 3 :: zeros 7);
         month_row 1974 1 (of_Z 5 :: of_Z 0 :: zeros 7)].

(** Exact numbers: the twelve months of 1973, coal [m] and dry gas [2 m]
    in month [m]. *)
Definition exact_1973 : DataFrame Qc :=
  {| columns := ["Coal"; "GasDry"]%string;
     rows := map (fun m => {| Date := {| year := 1973; month := m; day := 1 |};
                              cells := [Q2Qc (inject_Z m); Q2Qc (inject_Z (2 * m))] |})
                 [1; 2; 3; 4; 5; 6; 7; 8; 9; 10; 11; 12] |}.

(** A month whose values cancel: coal 1, dry gas -1. *)
Definition cancelling_month : DataFrame float :=
  frame [month_row 2025 4 (of_Z 1 :: of_Z (-1) :: zeros 7)].

(** A month whose total overflows: coal and dry gas are both 2^1023. *)
Definition huge_month : DataFrame float :=
  frame [month_row 2025 4 (of_Z (2 ^ 1023) :: of_Z (2 ^ 1023) :: zeros 7)].

(** A month whose total loses its large terms: 2^53, 3 and -2^53. *)
Definition absorbed_month : DataFrame float :=
  frame [month_row 2025 4 (of_Z (2 ^ 53) :: of_Z 3 :: of_Z (- 2 ^ 53) :: zeros 6)].

End Cases.

(** ** Vocabulary of the statements *)

(** What a second [aggregate_annual] does to a row that is already alone in
    its year: each total is summed once more, on its own. *)
Definition resum_row {A : Type} `{Number A} (r : row A) : row A :=
  {| Date := Date r; cells := map (fun s => MixPlot.nansum [s]) (cells r) |}.

(** * Properties *)

Import MixPlot.

(** ** Group keys *)

Section GroupKeys.
Context {A : Type} `{Number A}.

Lemma insert_year_elem (x y : Z) (ys : list Z) :
  x ∈ insert_year y ys <-> x = y \/ x ∈ ys.
Proof.
  induction ys as [|z zs IH]; simpl.
  - rewrite list_elem_of_singleton, elem_of_nil. tauto.
  - destruct (Z.ltb_spec y z) as [Hlt|Hge].
    + rewrite elem_of_cons. tauto.
    + destruct (Z.eqb_spec y z) as [->|Hne].
      * rewrite elem_of_cons. intuition congruence.
      * rewrite !elem_of_cons, IH. tauto.
Qed.

Lemma insert_year_sorted (y : Z) (ys : list Z) :
  StronglySorted Z.lt ys -> StronglySorted Z.lt (insert_year y ys).
Proof.
  induction 1 as [|z zs Hzs IH Hall]; simpl.
  - repeat constructor.
  - destruct (Z.ltb_spec y z) as [Hlt|Hge].
    + constructor; [by constructor|].
      constructor; [done|].
      eapply Forall_impl; [exact Hall|]. intros w Hw. simpl in Hw. lia.
    + destruct (Z.eqb_spec y z) as [->|Hne]; [by constructor|].
      constructor; [exact IH|].
      apply Forall_forall. intros w Hw.
      apply insert_year_elem in Hw as [->|Hw]; [lia|].
      rewrite Forall_forall in Hall. by apply Hall.
Qed.

Lemma insert_year_below (y : Z) (ys : list Z) :
  Forall (Z.lt y) ys -> insert_year y ys = y :: ys.
Proof.
  destruct 1 as [|z zs Hz _]; simpl; [done|].
  destruct (Z.ltb_spec y z); [done | lia].
Qed.

Lemma insert_all_sorted (ys : list Z) :
  StronglySorted Z.lt ys -> foldr insert_year [] ys = ys.
Proof.
  induction 1 as [|z zs _ IH Hall]; simpl; [done|].
  rewrite IH. by apply insert_year_below.
Qed.

Lemma group_keys_fold (rs : list (row A)) :
  group_keys rs = foldr insert_year [] (map (fun r => year (Date r)) rs).
Proof. induction rs as [|r rs IH]; simpl; [done | by rewrite <- IH]. Qed.

Lemma group_keys_sorted (rs : list (row A)) : StronglySorted Z.lt (group_keys rs).
Proof.
  induction rs as [|r rs IH]; simpl; [constructor | by apply insert_year_sorted].
Qed.

Lemma group_keys_elem (y : Z) (rs : list (row A)) :
  y ∈ group_keys rs <-> exists r, r ∈ rs /\ year (Date r) = y.
Proof.
  induction rs as [|r rs IH]; simpl.
  - split; [intros Hy; inversion Hy | intros (r & Hr & _); inversion Hr].
  - rewrite insert_year_elem, IH. split.
    + intros [->|(r' & Hr' & Hy)]; [exists r | exists r']; rewrite elem_of_cons; auto.
    + intros (r' & Hr' & Hy). apply elem_of_cons in Hr' as [->|Hr']; [by left|].
      right. by exists r'.
Qed.

Lemma sorted_lt_NoDup (ys : list Z) : StronglySorted Z.lt ys -> NoDup ys.
Proof.
  induction 1 as [|z zs _ IH Hall]; constructor; [|done].
  intros Hin. rewrite Forall_forall in Hall. specialize (Hall _ Hin). lia.
Qed.

Lemma group_keys_one_year (y : Z) (rs : list (row A)) :
  rs <> [] -> Forall (fun r => year (Date r) = y) rs -> group_keys rs = [y].
Proof.
  induction rs as [|r rs IH]; [done|]. intros _ Hall.
  apply Forall_cons in Hall as [Hr Hall]. simpl. rewrite Hr.
  destruct rs as [|r' rs']; [done|].
  rewrite IH by done. simpl. rewrite Z.ltb_irrefl, Z.eqb_refl. done.
Qed.

Lemma group_rows_all (y : Z) (rs : list (row A)) :
  Forall (fun r => year (Date r) = y) rs -> group_rows y rs = rs.
Proof.
  unfold group_rows. induction 1 as [|r rs Hr _ IH]; [done|].
  rewrite filter_cons_True by done. by rewrite IH.
Qed.

End GroupKeys.

(** ** aggregate_annual *)

Section Aggregate.
Context {A : Type} `{Number A}.

Lemma annual_years (n : nat) (rs : list (row A)) (ys : list Z) :
  map (fun r => year (Date r)) (map (annual_row n rs) ys) = ys.
Proof. induction ys as [|y ys IH]; simpl; [done | by rewrite IH]. Qed.

Lemma column_sums_length (n : nat) (rs : list (row A)) :
  length (column_sums n rs) = n.
Proof. unfold column_sums. by rewrite length_map, length_seq. Qed.

Lemma column_sums_lookup (n j : nat) (rs : list (row A)) :
  (j < n)%nat -> column_sums n rs !! j = Some (nansum (column j rs)).
Proof.
  intros Hj. unfold column_sums.
  change (map ?f ?l) with (f <$> l).
  rewrite list_lookup_fmap, lookup_seq_lt by done. done.
Qed.

Lemma filter_key (n : nat) (rs : list (row A)) (y : Z) (ys : list Z) :
  NoDup ys -> y ∈ ys ->
  group_rows y (map (annual_row n rs) ys) = [annual_row n rs y].
Proof.
  unfold group_rows. induction 1 as [|z zs Hz Hnd IH]; intros Hy.
  - inversion Hy.
  - simpl. apply elem_of_cons in Hy as [->|Hy].
    + rewrite filter_cons_True by done. f_equal.
      clear IH Hnd. induction zs as [|w ws IHw]; [done|].
      simpl. rewrite filter_cons_False.
      * apply IHw. intros Hin. apply Hz. by right.
      * simpl. intros ->. apply Hz. by left.
    + rewrite filter_cons_False; [by apply IH|].
      simpl. intros ->. done.
Qed.

Lemma column_sums_single (n : nat) (r : row A) :
  length (cells r) = n -> column_sums n [r] = map (fun s => nansum [s]) (cells r).
Proof.
  intros Hlen. apply list_eq. intros j.
  change (map ?f ?l) with ((fun s => nansum [s]) <$> l). rewrite list_lookup_fmap.
  destruct (decide (j < n)%nat) as [Hj|Hj].
  - rewrite column_sums_lookup by done.
    destruct (lookup_lt_is_Some_2 (cells r) j) as [v Hv]; [lia|].
    unfold column. simpl. rewrite Hv. done.
  - rewrite !lookup_ge_None_2; [done | lia |].
    rewrite column_sums_length. lia.
Qed.

Lemma aggregate_annual_again (df : DataFrame A) :
  aggregate_annual (aggregate_annual df)
  = {| columns := columns df; rows := map resum_row (rows (aggregate_annual df)) |}.
Proof.
  unfold aggregate_annual at 1. f_equal.
  simpl. set (n := length (columns df)). set (rs := rows df).
  pose proof (group_keys_sorted rs) as Hsorted.
  set (keys := group_keys rs) in *.
  rewrite group_keys_fold, annual_years, insert_all_sorted by done.
  change (map ?f (map ?g ?l)) with (f <$> (g <$> l)).
  change (map ?f ?l) with (f <$> l).
  rewrite <- list_fmap_compose.
  apply list_fmap_ext. intros _ y Hy%list_elem_of_lookup_2.
  unfold compose, annual_row at 1, resum_row. simpl. f_equal.
  rewrite filter_key; [| by apply sorted_lt_NoDup | done].
  apply column_sums_single. apply column_sums_length.
Qed.

End Aggregate.

(** ** Facts about the two number types *)

Lemma float_hundred : (hundred : float) = S754_finite false 7036874417766400 (-46).
Proof. reflexivity. Qed.

Lemma fadd_zero_l (s : float) :
  is_nan s = false -> s <> neg_zero -> nansum [s] = s.
Proof.
  intros Hnan Hneg. unfold nansum, nanadd. simpl. rewrite Hnan.
  destruct s as [[|]| | |]; try done.
Qed.

(** Dividing by a zero total and scaling gives NaN for a value that is
    zero or NaN, and an infinity for any other value. *)
Lemma fdiv_zero_split (v t : float) :
  is_zero t = true ->
  if is_zero v || is_nan v then mul (div v t) hundred = nan
  else mul (div v t) hundred = pos_inf \/ mul (div v t) hundred = neg_inf.
Proof.
  intros Ht. rewrite float_hundred. simpl.
  destruct t as [st| | |]; try discriminate.
  destruct v as [sv|sv| |sv mv ev]; cbn; try reflexivity;
    destruct sv, st; cbn; auto.
Qed.

Lemma Qc_nanadd (a v : Qc) : nanadd a v = (a + v)%Qc.
Proof. reflexivity. Qed.

Lemma Qc_add_zero_l (s : Qc) : nansum [s] = s.
Proof. apply Qcplus_0_l. Qed.

Lemma Qc_nansum_scale (t a : Qc) (l : list Qc) :
  fold_left nanadd (map (fun v => mul (div v t) hundred) l) (mul (div a t) hundred)
  = mul (div (fold_left nanadd l a) t) hundred.
Proof.
  revert a. induction l as [|v l IH]; intros a; cbn [map fold_left]; [done|].
  rewrite <- IH. f_equal. rewrite !Qc_nanadd.
  change (@mul Qc _) with Qcmult. change (@div Qc _) with Qcdiv.
  generalize (@hundred Qc _). intros h.
  change (nanadd a v) with (a + v)%Qc. unfold Qcdiv. ring.
Qed.

Lemma Qc_percent_total (l : list Qc) :
  nansum l <> 0%Qc ->
  nansum (map (fun v => mul (div v (nansum l)) hundred) l) = hundred.
Proof.
  intros Hne. unfold nansum at 1.
  replace (zero : Qc) with (mul (div 0%Qc (nansum l)) hundred)
    by (change (Qcmult (Qcdiv 0 (nansum l)) (Q2Qc 100) = 0%Qc);
        unfold Qcdiv; ring).
  rewrite Qc_nansum_scale. fold (nansum l).
  change (Qcmult (Qcdiv (nansum l) (nansum l)) (Q2Qc 100) = Q2Qc 100).
  field. exact Hne.
Qed.

(** ** percent_mix *)

Lemma percent_rows {A : Type} `{Number A} (P : row A -> row A -> Prop) (df : DataFrame A) :
  (forall r, r ∈ rows df -> P r (percent_row r)) ->
  Forall2 P (rows df) (rows (percent_mix df)).
Proof.
  intros HP. unfold percent_mix. simpl.
  change (map ?f ?l) with (f <$> l).
  apply Forall2_fmap_r, Forall_Forall2_diag, Forall_forall. exact HP.
Qed.

(** C2, as the code has it: every value [v] of a row becomes
    [v / total * 100], where [total] is the row's sum.  In exact arithmetic
    the new values of a row with a nonzero total sum to 100.  On floats they
    need not come near 100: a row with the finite total 4 has shares that
    sum to 64, and a row whose total overflows has shares that sum to 0.
    Dividing by a total that is zero gives no zero and no other finite
    number: NaN for a value that is zero or NaN, and +inf or -inf for any
    other value. *)
Theorem percent_mix_row_total :
  (forall (A : Type) (N : Number A) (df : DataFrame A),
      columns (percent_mix df) = columns df
      /\ Forall2 (fun r r' =>
           Date r' = Date r
           /\ cells r' = map (fun v => mul (div v (nansum (cells r))) hundred) (cells r))
         (rows df) (rows (percent_mix df)))
  /\ (forall df : DataFrame Qc,
        Forall2 (fun r r' => nansum (cells r) <> 0%Qc -> nansum (cells r') = Q2Qc 100)
                (rows df) (rows (percent_mix df)))
  /\ (exists df : DataFrame float,
        map (fun r => nansum (cells r)) (rows df) = [of_Z 4]
        /\ map (fun r => nansum (cells r)) (rows (percent_mix df)) = [of_Z 64])
  /\ (exists df : DataFrame float,
        map (fun r => nansum (cells r)) (rows df) = [pos_inf]
        /\ map (fun r => nansum (cells r)) (rows (percent_mix df)) = [pos_zero])
  /\ (forall t v : float,
        is_zero t = true ->
        if is_zero v || is_nan v then mul (div v t) hundred = nan
        else mul (div v t) hundred = pos_inf \/ mul (div v t) hundred = neg_inf)
  /\ (forall df : DataFrame float,
        Forall2 (fun r r' =>
                   is_zero (nansum (cells r)) = true ->
                   Forall2 (fun v v' =>
                              if is_zero v || is_nan v then v' = nan
                              else v' = pos_inf \/ v' = neg_inf)
                           (cells r) (cells r'))
                (rows df) (rows (percent_mix df))).
Proof.
  split; [|split; [|split; [|split; [|split]]]].
  - intros A N df. split; [done|]. by apply percent_rows.
  - intros df. apply percent_rows. intros r _ Hne.
    by apply Qc_percent_total.
  - exists Cases.absorbed_month. split; reflexivity.
  - exists Cases.huge_month. split; reflexivity.
  - intros t v Ht. by apply fdiv_zero_split.
  - intros df. apply percent_rows. intros r _ Hz.
    unfold percent_row. cbn [cells].
    change (map ?f ?l) with (f <$> l).
    apply Forall2_fmap_r, Forall_Forall2_diag, Forall_forall.
    intros v _. by apply fdiv_zero_split.
Qed.

(** In exact numbers the month (1, 3) has the shares 25 and 75.  On floats
    the month with coal 1 and dry gas -1 has total 0.0: its shares are +inf
    and -inf, and NaN for the sources that are zero. *)
Lemma percent_mix_row_total_witness :
  (nansum [Q2Qc 1; Q2Qc 3] <> 0%Qc
   /\ nansum (cells (percent_row
         {| Date := Samples.january_1973; cells := [Q2Qc 1; Q2Qc 3] |})) = Q2Qc 100)
  /\ (is_zero (nansum (of_Z 1 :: of_Z (-1) :: Samples.zeros 7)) = true
      /\ rows (percent_mix Cases.cancelling_month)
         = [Samples.month_row 2025 4 (pos_inf :: neg_inf :: replicate 7 nan)]
      /\ Forall2 (fun v v' => if is_zero v || is_nan v then v' = nan
                              else v' = pos_inf \/ v' = neg_inf)
                 (of_Z 1 :: of_Z (-1) :: Samples.zeros 7)
                 (pos_inf :: neg_inf :: replicate 7 nan)).
Proof.
  assert (Hne : nansum [Q2Qc 1; Q2Qc 3] <> 0%Qc).
  { intros Heq. apply (f_equal this) in Heq. vm_compute in Heq. discriminate. }
  destruct percent_mix_row_total as (_ & Hexact & _ & _ & _ & Hfloat).
  split; [split|split; [|split]].
  - exact Hne.
  - specialize (Hexact Samples.exact_month).
    apply Forall2_cons_1 in Hexact as [Hrow _]. apply Hrow. exact Hne.
  - reflexivity.
  - reflexivity.
  - specialize (Hfloat Cases.cancelling_month).
    apply Forall2_cons_1 in Hfloat as [Hrow _]. apply Hrow. reflexivity.
Defined.

(** On floats the shares of the month with coal 1 and dry gas 11 sum to
    99.99999999999999, one unit in the last place below 100. *)
Example percent_mix_float_total :
  map (fun r => nansum (cells r)) (rows (percent_mix Samples.one_month))
  = [S754_finite false 7036874417766399 (-46)]
  /\ (hundred : float) = S754_finite false 7036874417766400 (-46).
Proof. split; reflexivity. Qed.

(** The month in which every source is 0.0 has total 0.0, and the
    transform turns each of its values into NaN, not into 0.0. *)
Lemma percent_mix_zero_total_is_nan :
  Forall (fun r => nansum (cells r) = pos_zero) (rows Samples.silent_month)
  /\ rows (percent_mix Samples.silent_month)
     = [Samples.month_row 2025 4 (replicate 9 nan)]
  /\ ~ Forall (fun r' => Forall (fun v => v = pos_zero) (cells r'))
              (rows (percent_mix Samples.silent_month)).
Proof.
  split; [|split].
  - repeat constructor.
  - reflexivity.
  - intros Hall. apply Forall_cons_1 in Hall as [Hrow _].
    apply Forall_cons_1 in Hrow as [Hv _]. vm_compute in Hv. discriminate.
Qed.

(** A month with a total that is not zero whose shares do not sum to 100,
    nor to anything near.  With 2^53, 3 and -2^53 the total is 4 (the 3 is
    rounded to 4 next to 2^53) and the shares sum to 64.  With 2^1023 twice
    the total is +inf, every share is 0.0, and so is their sum. *)
Lemma percent_mix_nonzero_total_not_100 :
  (map (fun r => nansum (cells r)) (rows Cases.absorbed_month) = [of_Z 4]
   /\ map (fun r => nansum (cells r)) (rows (percent_mix Cases.absorbed_month))
      = [of_Z 64]
   /\ fltb (of_Z 64) (of_Z 99) = true)
  /\ (map (fun r => nansum (cells r)) (rows Cases.huge_month) = [pos_inf]
      /\ rows (percent_mix Cases.huge_month)
         = [Samples.month_row 2025 4 (Samples.zeros 9)]
      /\ map (fun r => nansum (cells r)) (rows (percent_mix Cases.huge_month))
         = [pos_zero]).
Proof. repeat split; reflexivity. Qed.

(** C2 as stated fails in both of its halves: a month of zeros does not
    become a month of 0.0 but of NaN, and a month with a nonzero total can
    have shares that sum to 64 or to 0. *)
Lemma percent_mix_total_fails :
  (Forall (fun r => nansum (cells r) = pos_zero) (rows Samples.silent_month)
   /\ rows (percent_mix Samples.silent_month)
      = [Samples.month_row 2025 4 (replicate 9 nan)]
   /\ ~ Forall (fun r' => Forall (fun v => v = pos_zero) (cells r'))
               (rows (percent_mix Samples.silent_month)))
  /\ (map (fun r => nansum (cells r)) (rows Cases.absorbed_month) = [of_Z 4]
      /\ map (fun r => nansum (cells r)) (rows (percent_mix Cases.absorbed_month))
         = [of_Z 64]
      /\ fltb (of_Z 64) (of_Z 99) = true)
  /\ (map (fun r => nansum (cells r)) (rows Cases.huge_month) = [pos_inf]
      /\ rows (percent_mix Cases.huge_month)
         = [Samples.month_row 2025 4 (Samples.zeros 9)]
      /\ map (fun r => nansum (cells r)) (rows (percent_mix Cases.huge_month))
         = [pos_zero]).
Proof.
  split; [exact percent_mix_zero_total_is_nan|].
  exact percent_mix_nonzero_total_not_100.
Qed.

(** ** aggregate_annual, applied twice *)

Lemma resum_rows_id {A : Type} `{Number A} (rs : list (row A)) :
  Forall (fun r => Forall (fun s => nansum [s] = s) (cells r)) rs ->
  map resum_row rs = rs.
Proof.
  induction 1 as [|r rs Hr _ IH]; simpl; [done|]. rewrite IH. f_equal.
  destruct r as [d cs]. unfold resum_row. simpl in *. f_equal.
  induction Hr as [|s cs Hs _ IHcs]; simpl; [done|]. by rewrite Hs, IHcs.
Qed.

(** C10, as the code has it: a second [aggregate_annual] keeps the rows and
    their dates and sums each annual total once more, on its own.  That
    returns the total itself unless the total is NaN (or the negative
    zero): in exact arithmetic, and on floats whenever no total of the first
    pass is NaN or -0.0, the second pass changes nothing. *)
Theorem aggregate_annual_second_pass :
  (forall (A : Type) (N : Number A) (df : DataFrame A),
      aggregate_annual (aggregate_annual df)
      = {| columns := columns df;
           rows := map resum_row (rows (aggregate_annual df)) |})
  /\ (forall df : DataFrame float,
        Forall (fun r => Forall (fun s => is_nan s = false /\ s <> neg_zero) (cells r))
               (rows (aggregate_annual df)) ->
        aggregate_annual (aggregate_annual df) = aggregate_annual df)
  /\ (forall df : DataFrame Qc,
        aggregate_annual (aggregate_annual df) = aggregate_annual df).
Proof.
  split; [|split].
  - intros A N df. apply aggregate_annual_again.
  - intros df Hok. rewrite aggregate_annual_again, resum_rows_id; [done|].
    eapply Forall_impl; [exact Hok|]. intros r Hr. simpl in Hr.
    eapply Forall_impl; [exact Hr|]. intros s [Hnan Hneg]. by apply fadd_zero_l.
  - intros df. rewrite aggregate_annual_again, resum_rows_id; [done|].
    apply Forall_forall. intros r _. apply Forall_forall. intros s _.
    apply Qc_add_zero_l.
Qed.

Lemma aggregate_annual_second_pass_witness :
  Forall (fun r => Forall (fun s => is_nan s = false /\ s <> neg_zero) (cells r))
         (rows (aggregate_annual Samples.year_1973))
  /\ aggregate_annual (aggregate_annual Samples.year_1973)
     = aggregate_annual Samples.year_1973.
Proof.
  assert (Hok : Forall (fun r => Forall (fun s => is_nan s = false /\ s <> neg_zero)
                                        (cells r))
                       (rows (aggregate_annual Samples.year_1973))).
  { vm_compute. repeat constructor; discriminate. }
  split; [exact Hok|].
  destruct aggregate_annual_second_pass as (_ & Hfloat & _).
  apply Hfloat. exact Hok.
Defined.

(** Coal is +inf in January and -inf in February: the annual total is NaN,
    and a second pass, which skips NaN, makes it 0.0. *)
Lemma aggregate_annual_twice_drops_nan :
  rows (aggregate_annual Samples.opposite_infinities)
  = [ {| Date := january_first 1973; cells := nan :: Samples.zeros 8 |} ]
  /\ rows (aggregate_annual (aggregate_annual Samples.opposite_infinities))
     = [ {| Date := january_first 1973; cells := pos_zero :: Samples.zeros 8 |} ]
  /\ aggregate_annual (aggregate_annual Samples.opposite_infinities)
     <> aggregate_annual Samples.opposite_infinities.
Proof.
  split; [reflexivity|]. split; [reflexivity|].
  intros Heq. apply (f_equal rows) in Heq. vm_compute in Heq. discriminate.
Qed.

(** ** The order of the two transforms *)

(** In exact arithmetic a second [percent_mix] changes nothing on a row
    with a nonzero total: the first pass makes the total 100. *)
Lemma Qc_percent_row_twice (r : row Qc) :
  nansum (cells r) <> 0%Qc -> percent_row (percent_row r) = percent_row r.
Proof.
  intros Hne. destruct r as [d cs]. unfold percent_row. cbn [Date cells] in *.
  f_equal. rewrite Qc_percent_total by done.
  induction (map _ cs) as [|v vs IH]; cbn [map]; [done|].
  rewrite IH. f_equal.
  change (Qcmult (Qcdiv v (Q2Qc 100)) (Q2Qc 100) = v).
  field. intros H100. apply (f_equal this) in H100. discriminate.
Qed.

(** C8: on floats a second [percent_mix] can change the result.  For the
    month with coal 1 and dry gas 11 the first pass gives the shares
    8.333333333333332 and 91.66666666666666, whose sum rounds to
    99.99999999999999, and the second pass moves the dry-gas share to
    91.66666666666667.  The callback, asked for monthly percentages, returns
    the result of the second pass. *)
Theorem percent_mix_twice_differs :
  exists df : DataFrame float,
    percent_mix (percent_mix df) <> percent_mix df
    /\ plot_frame "monthly" "percent" (1973, 1973) df = percent_mix (percent_mix df)
    /\ exists once twice,
         column 1 (rows (percent_mix df)) = [once]
         /\ column 1 (rows (percent_mix (percent_mix df))) = [twice]
         /\ fltb once twice = true.
Proof.
  exists Samples.one_month. split; [|split].
  - intros Heq. apply (f_equal rows) in Heq. vm_compute in Heq. discriminate.
  - reflexivity.
  - exists (S754_finite false 6450468216285866 (-46)),
           (S754_finite false 6450468216285867 (-46)).
    repeat split; reflexivity.
Qed.

(** C3: the two transforms do not commute.  For the two months of 1973 with
    coal and dry gas 3 to 1 and then 1 to 3, the mix of the annual totals is
    50 and 50, while the annual sum of the monthly mixes is 100 and 100.  The
    callback aggregates first: its annual percentage frame is that of the
    annual totals. *)
Theorem aggregate_percent_order :
  rows (percent_mix (aggregate_annual Samples.two_months))
  = [ {| Date := january_first 1973; cells := map of_Z [50; 50; 0; 0; 0; 0; 0; 0; 0] |} ]
  /\ rows (aggregate_annual (percent_mix Samples.two_months))
     = [ {| Date := january_first 1973;
            cells := map of_Z [100; 100; 0; 0; 0; 0; 0; 0; 0] |} ]
  /\ percent_mix (aggregate_annual Samples.two_months)
     <> aggregate_annual (percent_mix Samples.two_months)
  /\ (forall (A : Type) (N : Number A) (year_range : Z * Z) (df : DataFrame A),
        plot_frame "annual" "percent" year_range df
        = percent_mix (aggregate_annual (percent_mix (aggregate_annual
            (filter_years (fst year_range) (snd year_range) df)))))
  /\ plot_frame "annual" "percent" (1973, 1973) Samples.two_months
     = percent_mix (aggregate_annual Samples.two_months).
Proof.
  split; [reflexivity|]. split; [reflexivity|]. split; [|split].
  - intros Heq. apply (f_equal rows) in Heq. vm_compute in Heq. discriminate.
  - reflexivity.
  - reflexivity.
Qed.

(** ** update_pie *)

(** C9: the pie has the six categories Gas, Coal, Nuclear, Wind, Solar and
    All Others, in this order; Gas adds dry gas and gas liquids, All Others
    adds hydro, geothermal and biomass, the other four are single columns,
    and a column that the totals lack counts as zero.  The totals 10, 5, 20,
    8, 3, 2, 1, 0, 1 give 15, 20, 8, 3, 2, 2. *)
Theorem pie_data_categories :
  (forall (A : Type) (N : Number A) (totals : gmap string A),
      let field (k : string) := default zero (totals !! k) in
      map fst (pie_data totals)
      = ["Gas"; "Coal"; "Nuclear"; "Wind"; "Solar"; "All Others"]%string
      /\ map snd (pie_data totals)
         = [ add (field "GasDry") (field "GasLiquid");
             field "Coal"; field "Nuclear"; field "Wind"; field "Solar";
             add (add (field "Hydro") (field "Geothermal")) (field "Biomass") ]%string)
  /\ pie_data Samples.pie_totals
     = [ ("Gas", of_Z 15); ("Coal", of_Z 20); ("Nuclear", of_Z 8);
         ("Wind", of_Z 3); ("Solar", of_Z 2); ("All Others", of_Z 2) ]%string
  /\ update_pie 2024 Samples.pie_year = pie_data Samples.pie_totals
  /\ pie_data (delete "Geothermal"%string Samples.pie_totals)
     = pie_data Samples.pie_totals.
Proof.
  split; [|split; [|split]].
  - intros A N totals. split; reflexivity.
  - vm_compute. reflexivity.
  - vm_compute. reflexivity.
  - vm_compute. reflexivity.
Qed.

(** ** ReadExcel *)

Section Loader.
Variable parse_float : string -> option float.

Lemma select_positions (hs keys : list string) (js : list nat) :
  ReadExcel.select hs keys = inr js ->
  Forall2 (fun k j => hs !! j = Some k) keys js.
Proof.
  revert js. induction keys as [|k ks IH]; intros js; simpl.
  - intros [= <-]. constructor.
  - destruct (list_find (fun h => h = k) hs) as [[j h]|] eqn:Hfind; [|done].
    destruct (ReadExcel.select hs ks) as [k'|js'] eqn:Hsel; [done|].
    intros [= <-]. constructor; [|by apply IH].
    apply list_find_Some in Hfind as (Hj & -> & _). exact Hj.
Qed.

Lemma coerce_not_nan (c : cell) : is_nan (ReadExcel.coerce parse_float c) = false.
Proof.
  unfold ReadExcel.coerce, ReadExcel.fillna.
  destruct (is_nan (ReadExcel.to_numeric parse_float c)) eqn:Hnan; [done | exact Hnan].
Qed.

Lemma remap_ok (data_frame : sheet) (df : DataFrame float) (w w' : world) :
  ReadExcel._remap_dataFrame parse_float data_frame w = (Ok df, w') ->
  w' = w
  /\ exists js,
       ReadExcel.select (headers data_frame) (map fst ReadExcel.columns_mapping) = inr js
       /\ df = {| columns := map snd ReadExcel.columns_mapping;
                  rows := map (ReadExcel.remap_row parse_float js) (body data_frame) |}.
Proof.
  unfold ReadExcel._remap_dataFrame.
  destruct (ReadExcel.select _ _) as [k|js]; [done|].
  intros [= <- <-]. split; [done|]. by exists js.
Qed.


(** C6, as the code has it: no NaN is left in a production column of a
    loaded frame, and every row has its ten values.  A number in the sheet
    is kept as it is, whatever its sign and size. *)
Theorem loaded_fields_not_nan :
  (forall (file_name : string) (df : DataFrame float) (w w' : world),
      ReadExcel.__init__ parse_float file_name w = (Ok df, w') ->
      Forall (fun r => length (cells r) = 10%nat
                       /\ Forall (fun v => is_nan v = false) (cells r))
             (rows df))
  /\ (forall x, is_nan x = false -> ReadExcel.coerce parse_float (CNum x) = x).
Proof.
  split.
  - intros file_name df w w'. unfold ReadExcel.__init__, Py.bind.
    destruct (ReadExcel._read_excel_file file_name w) as [[data_frame|e|c] w1]; try done.
    intros Hok. apply remap_ok in Hok as (_ & js & Hsel & ->).
    apply select_positions, Forall2_length in Hsel.
    cbn [rows]. apply Forall_forall. intros r Hr.
    change (map ?f ?l) with (f <$> l) in Hr.
    apply list_elem_of_fmap in Hr as (sr & -> & _). cbn [cells ReadExcel.remap_row].
    split.
    + rewrite length_map, <- Hsel. reflexivity.
    + apply Forall_fmap, Forall_forall. intros j _. apply coerce_not_nan.
  - intros x Hx. unfold ReadExcel.coerce, ReadExcel.fillna. simpl. by rewrite Hx.
Qed.

End Loader.

(** The examples of C5 and C6 at the reader of decimal literals. *)


(** 6946802425218990 * 2^-49 is the binary64 number nearest to 12.34: it is
    within half a unit in the last place, 2^-50, of 1234/100. *)
Example nearest_to_12_34 :
  Z.abs (100 * 6946802425218990 - 1234 * 2 ^ 49) * 2 <= 100.
Proof. vm_compute. discriminate. Qed.

Example remap_text_sheet :
  fst (ReadExcel._remap_dataFrame Samples.parse_decimal Samples.text_sheet
         Samples.empty_world)
  = Ok {| columns := ["Coal"; "GasDry"; "GasLiquid"; "CrudeOil"; "Nuclear"; "Hydro";
                      "Geothermal"; "Solar"; "Wind"; "Biomass"]%string;
          rows := [ {| Date := Samples.january_1973;
                       cells := pos_zero
                                :: S754_finite false 6946802425218990 (-49)
                                :: map of_Z [1; 2; 3; 4; 5; 6; 7; 8] |} ] |}.
Proof. reflexivity. Qed.

Lemma loaded_fields_not_nan_witness :
  exists df,
    ReadExcel.__init__ Samples.parse_decimal "Mix.xlsx" Samples.fresh_world
    = (Ok df, Samples.fresh_world)
    /\ Forall (fun r => length (cells r) = 10%nat
                        /\ Forall (fun v => is_nan v = false) (cells r))
              (rows df).
Proof.
  eexists. split; [reflexivity|].
  destruct (loaded_fields_not_nan Samples.parse_decimal) as [Hrows _].
  eapply (Hrows "Mix.xlsx"%string _ Samples.fresh_world Samples.fresh_world).
  reflexivity.
Defined.

(** A sheet whose coal entry is the number -1 is accepted, and the loaded
    coal value is -1.0, below zero. *)
Lemma loaded_field_negative :
  fst (ReadExcel.__init__ Samples.parse_decimal "Mix.xlsx" Samples.negative_world)
  = Ok {| columns := map snd ReadExcel.columns_mapping;
          rows := [ {| Date := Samples.january_1973;
                       cells := map of_Z [-1; 2; 3; 4; 5; 6; 7; 8; 9; 10] |} ] |}
  /\ fltb (of_Z (-1)) pos_zero = true.
Proof. split; reflexivity. Qed.

(** ** UpdateSQLite *)

Lemma database_of_set (d : string) (db : gmap string table) (w : world) :
  Py.database_of d (Py.set_database d db w) = db.
Proof. unfold Py.database_of, Py.set_database. simpl. by rewrite lookup_insert_eq. Qed.

Lemma database_of_event (d : string) (ev : event) (w : world) :
  Py.database_of d (Py.add_event ev w) = Py.database_of d w.
Proof. reflexivity. Qed.

Lemma database_of_line (d line : string) (w : world) :
  Py.database_of d (Py.add_line line w) = Py.database_of d w.
Proof. reflexivity. Qed.

Ltac read_database :=
  repeat first [ rewrite database_of_event
               | rewrite database_of_set
               | rewrite database_of_line ].

Ltac run_steps :=
  unfold UpdateSQLite._insert_data, UpdateSQLite._create_newTable,
    UpdateSQLite._drop_table, Lib.connect, Lib.execute, Lib.to_sql, Py.bind,
    Py.emit, Py.get_database, Py.put_database, Py.print, Py.raise, Py.ret;
  cbv beta iota; read_database.

(** *** Names of tables *)

Lemma find_table_exact (name : string) (db : gmap string table) (t : table) :
  db !! name = Some t -> Lib.find_table name db = Some (name, t).
Proof. unfold Lib.find_table. by intros ->. Qed.

Lemma find_table_Some (name stored : string) (db : gmap string table) (t : table) :
  Lib.find_table name db = Some (stored, t) ->
  db !! stored = Some t /\ Lib.fold_case stored = Lib.fold_case name.
Proof.
  unfold Lib.find_table. destruct (db !! name) as [t'|] eqn:Hname.
  - by intros [= <- <-].
  - destruct (list_find _ _) as [[i [k t']]|] eqn:Hfind; [|done].
    cbn. intros [= <- <-].
    apply list_find_Some in Hfind as (Hi & Hfold & _).
    apply list_elem_of_lookup_2, elem_of_map_to_list in Hi. done.
Qed.

Lemma find_table_None (name : string) (db : gmap string table) :
  Lib.find_table name db = None
  <-> forall k, is_Some (db !! k) -> Lib.fold_case k <> Lib.fold_case name.
Proof.
  unfold Lib.find_table. split.
  - destruct (db !! name) as [t'|] eqn:Hname; [done|].
    destruct (list_find _ _) as [p|] eqn:Hfind; [done|].
    intros _ k [t Hk] Hfold.
    apply list_find_None in Hfind. rewrite Forall_forall in Hfind.
    apply (Hfind (k, t)); [by apply elem_of_map_to_list | done].
  - intros Hno. destruct (db !! name) as [t'|] eqn:Hname.
    + by destruct (Hno name).
    + destruct (list_find _ _) as [[i [k t]]|] eqn:Hfind; [|done].
      apply list_find_Some in Hfind as (Hi & Hfold & _).
      apply list_elem_of_lookup_2, elem_of_map_to_list in Hi.
      by destruct (Hno k).
Qed.

Lemma drop_table_lookup (name k : string) (db : gmap string table) :
  Lib.fold_case k <> Lib.fold_case name -> Lib.drop_table name db !! k = db !! k.
Proof.
  unfold Lib.drop_table.
  destruct (Lib.find_table name db) as [[stored t]|] eqn:Hfind; [|done].
  intros Hk. apply find_table_Some in Hfind as [_ Hstored].
  apply lookup_delete_ne. congruence.
Qed.

Lemma drop_table_is_Some (name k : string) (db : gmap string table) :
  is_Some (Lib.drop_table name db !! k) -> is_Some (db !! k).
Proof.
  unfold Lib.drop_table.
  destruct (Lib.find_table name db) as [[stored t]|]; [|done].
  destruct (decide (stored = k)) as [->|Hne].
  - rewrite lookup_delete_eq. by intros [? ?].
  - by rewrite lookup_delete_ne.
Qed.

(** In a database whose table names are distinct up to case, no table of
    the dropped name is left. *)
Lemma drop_table_gone (name k : string) (db : gmap string table) :
  (forall a b, is_Some (db !! a) -> is_Some (db !! b) ->
               Lib.fold_case a = Lib.fold_case b -> a = b) ->
  Lib.fold_case k = Lib.fold_case name -> Lib.drop_table name db !! k = None.
Proof.
  intros Hdistinct Hk. unfold Lib.drop_table.
  destruct (Lib.find_table name db) as [[stored t]|] eqn:Hfind.
  - apply find_table_Some in Hfind as [Hstored Hfold].
    destruct (db !! k) as [t'|] eqn:Hlook.
    + rewrite (Hdistinct k stored); [apply lookup_delete_eq | done | done | congruence].
    + destruct (decide (stored = k)) as [->|Hne]; [apply lookup_delete_eq|].
      by rewrite lookup_delete_ne.
  - destruct (db !! k) as [t'|] eqn:Hlook; [|done].
    rewrite find_table_None in Hfind. by destruct (Hfind k).
Qed.

Lemma find_table_drop_None (name other : string) (db : gmap string table) :
  Lib.find_table other db = None -> Lib.find_table other (Lib.drop_table name db) = None.
Proof.
  rewrite !find_table_None. intros Hno k Hk. apply Hno. by eapply drop_table_is_Some.
Qed.

Lemma find_table_drop_Some (name other : string) (db : gmap string table) (t : table) :
  db !! other = Some t -> Lib.fold_case other <> Lib.fold_case name ->
  Lib.find_table other (Lib.drop_table name db) = Some (other, t).
Proof. intros Ht Hne. apply find_table_exact. by rewrite drop_table_lookup. Qed.

Lemma find_table_dropped (name other : string) (db : gmap string table) :
  Lib.fold_case other <> Lib.fold_case name ->
  Lib.find_table other (Lib.drop_table name db) = None -> Lib.find_table other db = None.
Proof.
  rewrite !find_table_None. intros Hne Hno k Hk Hfold. apply (Hno k); [|done].
  rewrite drop_table_lookup; [done | congruence].
Qed.

Lemma EnergyMix_not_Mix : Lib.fold_case "EnergyMix" <> Lib.fold_case "Mix".
Proof. discriminate. Qed.

Section Ingestion.
Variable parse_float : string -> option float.

Lemma read_init_missing (file_name : string) (w : world) :
  files w !! file_name = None ->
  ReadExcel.__init__ parse_float file_name w
  = (Exit 1, Py.add_line ("Error: The file '" +:+ file_name +:+ "' was not found.") w).
Proof.
  intros Hmissing.
  unfold ReadExcel.__init__, ReadExcel._read_excel_file, Py.bind, Py.try_except,
    Lib.read_excel, Py.print, Py.sys_exit.
  by rewrite Hmissing.
Qed.

(** Reading succeeds without changing the world, and only looks at the
    files. *)
Lemma read_init_ok (file_name : string) (w w' : world) (df : DataFrame float) :
  ReadExcel.__init__ parse_float file_name w = (Ok df, w') ->
  w' = w
  /\ forall w2, files w2 = files w ->
       ReadExcel.__init__ parse_float file_name w2 = (Ok df, w2).
Proof.
  unfold ReadExcel.__init__, ReadExcel._read_excel_file, Py.bind, Py.try_except,
    Lib.read_excel, Py.ret, Py.print, Py.sys_exit.
  destruct (files w !! file_name) as [s|] eqn:Hfile; [|done].
  intros Hok. apply remap_ok in Hok as (-> & js & Hsel & ->).
  split; [done|]. intros w2 Hw2. rewrite Hw2, Hfile.
  unfold ReadExcel._remap_dataFrame. cbn [headers body] in *. by rewrite Hsel.
Qed.

(** A run that ends well found no table EnergyMix, whatever the case of the
    name, and leaves the rows of the sheet in table EnergyMix. *)
Lemma init_ok_table (file_name db_name : string) (w w1 : world) :
  UpdateSQLite.__init__ parse_float file_name db_name w = (Ok tt, w1) ->
  files w1 = files w
  /\ exists df,
       ReadExcel.__init__ parse_float file_name w = (Ok df, w)
       /\ Lib.find_table "EnergyMix" (Py.database_of db_name w) = None
       /\ Py.database_of db_name w1 !! "EnergyMix"%string
          = Some {| schema := ["Date"; "Coal"; "GasDry"; "GasLiquid"; "CrudeOil";
                               "Nuclear"; "Hydro"; "Geothermal"; "Solar"; "Wind";
                               "Biomass"]%string;
                    primary_key := true;
                    records := map Lib.store_row (rows df) |}.
Proof.
  unfold UpdateSQLite.__init__. unfold Py.bind at 1.
  destruct (ReadExcel.__init__ parse_float file_name w) as [[df|e|c] w0] eqn:Hread;
    try done.
  apply read_init_ok in Hread as [-> _].
  run_steps.
  destruct (Lib.find_table "EnergyMix" (Lib.drop_table "Mix" (Py.database_of db_name w)))
    as [p|] eqn:Hfind; [done|].
  read_database. rewrite lookup_insert_eq. cbn [primary_key records app andb].
  destruct (bool_decide (NoDup (map Date (rows df)))); cbn [negb]; [|done].
  intros [= <-]. split; [reflexivity|]. exists df.
  split; [done|]. split.
  - eapply find_table_dropped; [apply EnergyMix_not_Mix | exact Hfind].
  - read_database. by rewrite lookup_insert_eq.
Qed.

(** A run against a database that holds table EnergyMix stops at CREATE
    TABLE, and leaves that table as it was. *)
Lemma init_table_exists (file_name db_name : string) (w : world)
    (df : DataFrame float) (t : table) :
  ReadExcel.__init__ parse_float file_name w = (Ok df, w) ->
  Py.database_of db_name w !! "EnergyMix"%string = Some t ->
  exists w',
    UpdateSQLite.__init__ parse_float file_name db_name w
    = (Raise (OperationalError "table EnergyMix already exists"), w')
    /\ Py.database_of db_name w' !! "EnergyMix"%string = Some t
    /\ stdout w' = stdout w.
Proof.
  intros Hread Ht. unfold UpdateSQLite.__init__. unfold Py.bind at 1.
  rewrite Hread. run_steps.
  rewrite (find_table_drop_Some "Mix" "EnergyMix" _ t Ht EnergyMix_not_Mix).
  eexists. split; [reflexivity|]. read_database.
  split; [|reflexivity].
  rewrite drop_table_lookup by apply EnergyMix_not_Mix. exact Ht.
Qed.

(** C7: when the spreadsheet does not exist, the run prints the message
    and ends in [sys.exit(1)]; no connection was opened and no statement
    was run, and the databases are as they were. *)
Theorem missing_file_exits (file_name db_name : string) (w : world) :
  files w !! file_name = None ->
  exists w',
    UpdateSQLite.__init__ parse_float file_name db_name w = (Exit 1, w')
    /\ stdout w'
       = stdout w ++ ["Error: The file '" +:+ file_name +:+ "' was not found."]
    /\ db_log w' = db_log w
    /\ databases w' = databases w
    /\ files w' = files w.
Proof.
  intros Hmissing. eexists. split.
  - unfold UpdateSQLite.__init__. unfold Py.bind at 1.
    rewrite read_init_missing by done. reflexivity.
  - done.
Qed.

(** C1, on the code: a second run after a run that ended well does not end
    well.  DROP TABLE names table Mix, the table is EnergyMix, so CREATE
    TABLE finds it and raises; nothing is printed, and the table keeps the
    rows of the first run. *)
Theorem second_ingestion_raises (file_name db_name : string) (w w1 : world) :
  UpdateSQLite.__init__ parse_float file_name db_name w = (Ok tt, w1) ->
  exists w2,
    UpdateSQLite.__init__ parse_float file_name db_name w1
    = (Raise (OperationalError "table EnergyMix already exists"), w2)
    /\ Py.database_of db_name w2 !! "EnergyMix"%string
       = Py.database_of db_name w1 !! "EnergyMix"%string
    /\ stdout w2 = stdout w1.
Proof.
  intros Hfirst.
  apply init_ok_table in Hfirst as (Hfiles & df & Hread & _ & Htable).
  apply read_init_ok in Hread as [_ Hread].
  destruct (init_table_exists file_name db_name w1 df _ (Hread w1 Hfiles) Htable)
    as (w2 & Hrun & Hkept & Hout).
  exists w2. by rewrite Htable.
Qed.

End Ingestion.

Lemma missing_file_exits_witness :
  files Samples.empty_world !! "Mix.xlsx"%string = None
  /\ exists w',
       UpdateSQLite.main Samples.parse_decimal Samples.empty_world = (Exit 1, w')
       /\ stdout w' = ["Error: The file 'Mix.xlsx' was not found."]%string
       /\ db_log w' = []
       /\ databases w' = ∅
       /\ files w' = ∅.
Proof.
  split; [reflexivity|].
  exact (missing_file_exits Samples.parse_decimal "Mix.xlsx" "Energy.db"
           Samples.empty_world eq_refl).
Defined.

Lemma second_ingestion_raises_witness :
  exists w1 w2,
    UpdateSQLite.main Samples.parse_decimal Samples.fresh_world = (Ok tt, w1)
    /\ UpdateSQLite.main Samples.parse_decimal w1
       = (Raise (OperationalError "table EnergyMix already exists"), w2)
    /\ Py.database_of "Energy.db" w2 !! "EnergyMix"%string
       = Py.database_of "Energy.db" w1 !! "EnergyMix"%string
    /\ stdout w2 = stdout w1.
Proof.
  eexists.
  assert (Hfirst : UpdateSQLite.main Samples.parse_decimal Samples.fresh_world
                   = (Ok tt, snd (UpdateSQLite.main Samples.parse_decimal
                                    Samples.fresh_world))) by reflexivity.
  destruct (second_ingestion_raises Samples.parse_decimal "Mix.xlsx" "Energy.db"
              _ _ Hfirst) as (w2 & Hrun & Hkept & Hout).
  exists w2. split; [exact Hfirst|]. split; [exact Hrun|]. split; assumption.
Defined.

(** ** More on ReadExcel and UpdateSQLite *)

Section MoreIngestion.
Variable parse_float : string -> option float.

Lemma select_missing (hs keys : list string) (k : string) :
  ReadExcel.select hs keys = inl k -> k ∈ keys /\ (k ∉ hs).
Proof.
  induction keys as [|k0 ks IH]; simpl; [done|].
  destruct (list_find (fun h => h = k0) hs) as [[j h]|] eqn:Hfind.
  - destruct (ReadExcel.select hs ks) as [k'|js]; [|done].
    intros [= ->]. destruct (IH eq_refl) as [Hin Hnot]. split; [by right | done].
  - intros [= ->]. split; [by left|].
    apply list_find_None in Hfind. rewrite Forall_forall in Hfind.
    intros Hin. by apply (Hfind k).
Qed.

Lemma select_found (hs keys : list string) (js : list nat) :
  ReadExcel.select hs keys = inr js -> keys ⊆ hs.
Proof.
  intros Hsel%select_positions k Hk.
  apply list_elem_of_lookup in Hk as [p Hp].
  destruct (Forall2_lookup_l _ _ _ _ _ Hsel Hp) as (j & _ & Hj).
  by apply list_elem_of_lookup_2 in Hj.
Qed.

(** X1: when the sheet lacks one of the ten production headers, the run
    raises [KeyError] for a header that is missing, and leaves the world as
    it was: nothing is printed, no connection is opened, no statement is
    run. *)
Theorem missing_header_raises (file_name db_name : string) (w : world) (s : sheet) :
  files w !! file_name = Some s ->
  ~ (map fst ReadExcel.columns_mapping ⊆ headers s) ->
  exists k,
    k ∈ map fst ReadExcel.columns_mapping
    /\ (k ∉ headers s)
    /\ UpdateSQLite.__init__ parse_float file_name db_name w = (Raise (KeyError k), w).
Proof.
  intros Hfile Hmissing.
  destruct (ReadExcel.select (headers s) (map fst ReadExcel.columns_mapping))
    as [k|js] eqn:Hsel.
  - exists k. destruct (select_missing _ _ _ Hsel) as [Hin Hnot].
    split; [done|]. split; [done|].
    unfold UpdateSQLite.__init__, ReadExcel.__init__, ReadExcel._read_excel_file,
      ReadExcel._remap_dataFrame, Py.bind, Py.try_except, Lib.read_excel, Py.ret,
      Py.raise.
    rewrite Hfile. cbn [headers]. by rewrite Hsel.
  - destruct Hmissing. by eapply select_found.
Qed.





(** X3: when the sheet is read, its dates are distinct and the database
    (whose table names are distinct up to case, as in every database of
    SQLite) has no table named EnergyMix in any case, the run ends well.  No
    table named Mix in any case is left, table EnergyMix holds the rows of
    the loaded frame (a negative zero is stored as 0.0), every other table is
    as before, the success line is printed, and the database saw the
    connection, DROP, CREATE, the insertion, the commit and the close, in
    this order. *)
Theorem ingestion_succeeds (file_name db_name : string) (w : world)
    (df : DataFrame float) :
  ReadExcel.__init__ parse_float file_name w = (Ok df, w) ->
  (forall a b, is_Some (Py.database_of db_name w !! a) ->
               is_Some (Py.database_of db_name w !! b) ->
               Lib.fold_case a = Lib.fold_case b -> a = b) ->
  (forall k, is_Some (Py.database_of db_name w !! k) ->
             Lib.fold_case k <> "energymix"%string) ->
  NoDup (map Date (rows df)) ->
  exists w1,
    UpdateSQLite.__init__ parse_float file_name db_name w = (Ok tt, w1)
    /\ Py.database_of db_name w1 !! "EnergyMix"%string
       = Some {| schema := ["Date"; "Coal"; "GasDry"; "GasLiquid"; "CrudeOil";
                            "Nuclear"; "Hydro"; "Geothermal"; "Solar"; "Wind";
                            "Biomass"]%string;
                 primary_key := true;
                 records :=
                   map (fun r => {| Date := Date r;
                                    cells := map (fun v => if is_zero v then pos_zero else v)
                                                 (cells r) |})
                       (rows df) |}
    /\ (forall k, Lib.fold_case k = "mix"%string ->
          Py.database_of db_name w1 !! k = None)
    /\ (forall k, Lib.fold_case k <> "mix"%string -> k <> "EnergyMix"%string ->
          Py.database_of db_name w1 !! k = Py.database_of db_name w !! k)
    /\ stdout w1 = stdout w ++ ["SQLite table 'EnergyMix' updated successfully."%string]
    /\ db_log w1
       = db_log w
         ++ [ EvConnect db_name;
              EvExecute (DropTableIfExists "Mix");
              EvExecute
                (CreateTable "EnergyMix"
                   ["Date"; "Coal"; "GasDry"; "GasLiquid"; "CrudeOil"; "Nuclear";
                    "Hydro"; "Geothermal"; "Solar"; "Wind"; "Biomass"]%string true);
              EvInsert "EnergyMix" (length (rows df));
              EvCommit; EvClose ]
    /\ files w1 = files w.
Proof.
  intros Hread Hdistinct Hfree Hdates.
  assert (Hfind : Lib.find_table "EnergyMix" (Py.database_of db_name w) = None).
  { apply find_table_None. intros k Hk. exact (Hfree k Hk). }
  unfold UpdateSQLite.__init__. unfold Py.bind at 1.
  rewrite Hread. run_steps.
  rewrite (find_table_drop_None "Mix" _ _ Hfind). read_database.
  rewrite lookup_insert_eq.
  cbn [primary_key records app andb]. rewrite bool_decide_eq_true_2 by done.
  cbn [negb]. eexists. split; [reflexivity|]. read_database.
  split; [by rewrite lookup_insert_eq|]. split; [|split].
  - intros k Hk.
    assert (Hne : k <> "EnergyMix"%string) by (intros ->; discriminate).
    rewrite !lookup_insert_ne by done. by apply drop_table_gone.
  - intros k Hk Hne. rewrite !lookup_insert_ne by done. by apply drop_table_lookup.
  - split; [reflexivity|]. split; [|reflexivity].
    cbn [db_log Py.add_event Py.add_line Py.set_database].
    by rewrite <- !app_assoc.
Qed.

(** X4: when two rows of the sheet have the same date and the database has
    no table named EnergyMix in any case, the insertion violates the primary
    key: the run ends in an exception, prints nothing, and leaves table
    EnergyMix created and empty. *)
Theorem duplicate_dates_raise (file_name db_name : string) (w : world)
    (df : DataFrame float) :
  ReadExcel.__init__ parse_float file_name w = (Ok df, w) ->
  (forall k, is_Some (Py.database_of db_name w !! k) ->
             Lib.fold_case k <> "energymix"%string) ->
  ~ NoDup (map Date (rows df)) ->
  exists e w1,
    UpdateSQLite.__init__ parse_float file_name db_name w = (Raise e, w1)
    /\ Py.database_of db_name w1 !! "EnergyMix"%string
       = Some {| schema := ["Date"; "Coal"; "GasDry"; "GasLiquid"; "CrudeOil";
                            "Nuclear"; "Hydro"; "Geothermal"; "Solar"; "Wind";
                            "Biomass"]%string;
                 primary_key := true;
                 records := [] |}
    /\ stdout w1 = stdout w.
Proof.
  intros Hread Hfree Hdates.
  assert (Hfind : Lib.find_table "EnergyMix" (Py.database_of db_name w) = None).
  { apply find_table_None. intros k Hk. exact (Hfree k Hk). }
  unfold UpdateSQLite.__init__. unfold Py.bind at 1.
  rewrite Hread. run_steps.
  rewrite (find_table_drop_None "Mix" _ _ Hfind). read_database.
  rewrite lookup_insert_eq.
  cbn [primary_key records app andb]. rewrite bool_decide_eq_false_2 by done.
  cbn [negb]. do 2 eexists. split; [reflexivity|]. read_database.
  by rewrite lookup_insert_eq.
Qed.

Lemma read_init_frame (file_name : string) (w : world) :
  let w' := snd (ReadExcel.__init__ parse_float file_name w) in
  files w' = files w /\ databases w' = databases w /\ db_log w' = db_log w.
Proof.
  unfold ReadExcel.__init__, ReadExcel._read_excel_file, ReadExcel._remap_dataFrame,
    Py.bind, Py.try_except, Lib.read_excel, Py.ret, Py.raise, Py.print, Py.sys_exit.
  destruct (files w !! file_name) as [s|]; [|done]. cbn [headers body].
  by destruct (ReadExcel.select _ _).
Qed.

(** X5: however a run ends, it leaves the files as they were, and the
    other databases, and in its database every table whose name is neither
    Mix nor EnergyMix in any case. *)
Theorem ingestion_touches_two_tables (file_name db_name : string) (w : world) :
  let w' := snd (UpdateSQLite.__init__ parse_float file_name db_name w) in
  files w' = files w
  /\ (forall other, other <> db_name -> databases w' !! other = databases w !! other)
  /\ (forall k, Lib.fold_case k <> "mix"%string -> Lib.fold_case k <> "energymix"%string ->
        Py.database_of db_name w' !! k = Py.database_of db_name w !! k).
Proof.
  intros w'.
  destruct (UpdateSQLite.__init__ parse_float file_name db_name w) as [r w1] eqn:Hrun.
  subst w'. cbn [snd]. revert Hrun.
  pose proof (read_init_frame file_name w) as Hread.
  unfold UpdateSQLite.__init__. unfold Py.bind at 1.
  destruct (ReadExcel.__init__ parse_float file_name w) as [[df|e|c] w0];
    cbn [snd] in Hread; destruct Hread as (Hfiles & Hdbs & _).
  2,3: (intros [= <- <-]; unfold Py.database_of; split; [done|];
        split; intros; by rewrite Hdbs).
  assert (Hdb0 : Py.database_of db_name w0 = Py.database_of db_name w)
    by (unfold Py.database_of; by rewrite Hdbs).
  assert (Hname : forall k, Lib.fold_case k <> "energymix"%string -> k <> "EnergyMix"%string).
  { intros k Hk ->. by apply Hk. }
  run_steps.
  destruct (Lib.find_table "EnergyMix" (Lib.drop_table "Mix" (Py.database_of db_name w0)))
    as [p|] eqn:Hfind.
  - intros [= <- <-]. read_database. split; [done|]. split.
    + intros other Hother. cbn. rewrite !lookup_insert_ne by done. by rewrite Hdbs.
    + intros k Hmix _. rewrite drop_table_lookup by done. by rewrite Hdb0.
  - read_database. rewrite lookup_insert_eq. cbn [primary_key records app andb].
    destruct (bool_decide (NoDup (map Date (rows df)))); cbn [negb];
      intros [= <- <-]; read_database.
    + split; [done|]. split.
      * intros other Hother. cbn. rewrite !lookup_insert_ne by done. by rewrite Hdbs.
      * intros k Hmix Hem%Hname. rewrite !lookup_insert_ne, drop_table_lookup by done.
        by rewrite Hdb0.
    + split; [done|]. split.
      * intros other Hother. cbn. rewrite !lookup_insert_ne by done. by rewrite Hdbs.
      * intros k Hmix Hem%Hname. rewrite !lookup_insert_ne, drop_table_lookup by done.
        by rewrite Hdb0.
Qed.


Lemma delete_found_not_elem (col : string) (cols : list string) (j : nat) (c : string) :
  NoDup cols -> list_find (fun h => h = col) cols = Some (j, c) -> col ∉ delete j cols.
Proof.
  intros Hnd Hfind Hin. apply list_find_Some in Hfind as (Hj & -> & _).
  apply list_elem_of_lookup in Hin as [i Hi].
  destruct (decide (i < j)%nat) as [Hlt|Hge].
  - rewrite list_lookup_delete_lt in Hi by done.
    pose proof (NoDup_lookup _ _ _ _ Hnd Hi Hj). lia.
  - rewrite list_lookup_delete_ge in Hi by lia.
    pose proof (NoDup_lookup _ _ _ _ Hnd Hi Hj). lia.
Qed.

Lemma drop_column_absent (col : string) (df : DataFrame float) :
  NoDup (columns df) -> col ∉ columns (drop_column col df).
Proof.
  intros Hnd. unfold drop_column.
  destruct (list_find (fun c => c = col) (columns df)) as [[j c]|] eqn:Hfind.
  - cbn [columns]. by eapply delete_found_not_elem.
  - apply list_find_None in Hfind. rewrite Forall_forall in Hfind.
    intros Hin. by apply (Hfind col).
Qed.

End MoreIngestion.

(** X7: when the database holds table EnergyMix with distinct column
    names, [load_data] returns its rows, in their order and with their
    dates, without the column CrudeOil, and leaves the tables as they
    were. *)
Theorem load_data_without_crude_oil (w : world) (t : table) :
  Py.database_of "Energy.db" w !! "EnergyMix"%string = Some t ->
  NoDup (tail (schema t)) ->
  exists df w',
    load_data w = (Ok df, w')
    /\ df = drop_column "CrudeOil" {| columns := tail (schema t); rows := records t |}
    /\ ("CrudeOil"%string ∉ columns df)
    /\ map Date (rows df) = map Date (records t)
    /\ Py.database_of "Energy.db" w' = Py.database_of "Energy.db" w.
Proof.
  intros Ht Hnd. unfold load_data, Lib.connect, Lib.read_sql_query, Py.bind, Py.emit,
    Py.get_database, Py.put_database, Py.ret, Py.raise.
  cbv beta iota. read_database. rewrite (find_table_exact _ _ _ Ht). do 2 eexists.
  split; [reflexivity|]. split; [reflexivity|].
  split; [by apply drop_column_absent|]. split.
  - unfold drop_column. destruct (list_find _ _) as [[j c]|]; [|done].
    cbn [rows]. by rewrite map_map.
  - by read_database.
Qed.

(** X8: when the database has no table named EnergyMix in any case,
    [load_data] raises pandas' [DatabaseError]; it creates no table and
    prints nothing. *)
Theorem load_data_without_table (w : world) :
  (forall k, is_Some (Py.database_of "Energy.db" w !! k) ->
             Lib.fold_case k <> "energymix"%string) ->
  exists msg w',
    load_data w = (Raise (DatabaseError msg), w')
    /\ Py.database_of "Energy.db" w' = Py.database_of "Energy.db" w
    /\ stdout w' = stdout w.
Proof.
  intros Hfree.
  assert (Hfind : Lib.find_table "EnergyMix" (Py.database_of "Energy.db" w) = None).
  { apply find_table_None. intros k Hk. exact (Hfree k Hk). }
  unfold load_data, Lib.connect, Lib.read_sql_query, Py.bind, Py.emit,
    Py.get_database, Py.put_database, Py.ret, Py.raise.
  cbv beta iota. read_database. rewrite Hfind. do 2 eexists.
  split; [reflexivity|]. by read_database.
Qed.

(** X6: after an ingestion that ended well, [load_data] returns the frame
    that was loaded from the sheet with the nine columns other than
    CrudeOil: each row keeps its date and its values, less the fourth, but
    for a negative zero, which the table gives back as 0.0. *)
Theorem load_after_ingestion (parse_float : string -> option float) (w w1 : world) :
  UpdateSQLite.main parse_float w = (Ok tt, w1) ->
  exists df w2,
    ReadExcel.__init__ parse_float "Mix.xlsx" w = (Ok df, w)
    /\ load_data w1
       = (Ok {| columns := ["Coal"; "GasDry"; "GasLiquid"; "Nuclear"; "Hydro";
                            "Geothermal"; "Solar"; "Wind"; "Biomass"]%string;
                rows :=
                  map (fun r =>
                         {| Date := Date r;
                            cells := delete 3%nat
                                       (map (fun v => if is_zero v then pos_zero else v)
                                            (cells r)) |})
                      (rows df) |}, w2).
Proof.
  intros Hrun. apply init_ok_table in Hrun as (_ & df & Hread & _ & Htable).
  exists df. unfold load_data, Lib.connect, Lib.read_sql_query, Py.bind, Py.emit,
    Py.get_database, Py.put_database, Py.ret, Py.raise.
  cbv beta iota. read_database. rewrite (find_table_exact _ _ _ Htable).
  eexists. split; [done|].
  unfold drop_column. cbn [tail schema records columns rows].
  set (found := list_find _ _). vm_compute in found. subst found. cbv beta iota.
  rewrite map_map. reflexivity.
Qed.

(** ** More on the transforms *)

Section MoreTransforms.
Context {A : Type} `{Number A}.

Lemma group_keys_nil (rs : list (row A)) : group_keys rs = [] <-> rs = [].
Proof.
  split; [|by intros ->]. destruct rs as [|r rs]; [done|]. intros Hnil.
  assert (Hin : year (Date r) ∈ group_keys (r :: rs)).
  { apply group_keys_elem. exists r. split; [by left | done]. }
  rewrite Hnil in Hin. inversion Hin.
Qed.

Lemma insert_year_length (y : Z) (ys : list Z) :
  (length (insert_year y ys) <= S (length ys))%nat.
Proof.
  induction ys as [|z zs IH]; simpl; [lia|].
  destruct (y <? z); simpl; [lia|]. destruct (y =? z); simpl; lia.
Qed.

(** X9: [aggregate_annual] never returns more rows than it is given, and
    returns none exactly when it is given none. *)
Theorem aggregate_annual_row_count (df : DataFrame A) :
  (length (rows (aggregate_annual df)) <= length (rows df))%nat
  /\ (rows (aggregate_annual df) = [] <-> rows df = []).
Proof.
  unfold aggregate_annual. cbn [rows]. split.
  - rewrite length_map. induction (rows df) as [|r rs IH]; simpl; [lia|].
    pose proof (insert_year_length (year (Date r)) (group_keys rs)). lia.
  - etransitivity; [|apply group_keys_nil].
    by destruct (group_keys (rows df)).
Qed.

(** Filtering the keys and filtering the rows. *)
Lemma insert_year_filter (P : Z -> Prop) `{!forall y, Decision (P y)} (y : Z) (ys : list Z) :
  StronglySorted Z.lt ys ->
  filter P (insert_year y ys)
  = if decide (P y) then insert_year y (filter P ys) else filter P ys.
Proof.
  induction 1 as [|z zs Hzs IH Hall]; simpl.
  - rewrite filter_cons, filter_nil. by destruct (decide (P y)).
  - destruct (Z.ltb_spec y z) as [Hlt|Hge].
    + rewrite (filter_cons _ y). destruct (decide (P y)) as [Hy|Hy]; [|done].
      symmetry. apply insert_year_below.
      apply Forall_forall. intros v Hv%list_elem_of_filter. destruct Hv as [_ Hv].
      apply elem_of_cons in Hv as [->|Hv]; [done|].
      rewrite Forall_forall in Hall. specialize (Hall _ Hv). lia.
    + destruct (Z.eqb_spec y z) as [->|Hne].
      * rewrite filter_cons. destruct (decide (P z)) as [Hz|Hz]; [|done].
        simpl. by rewrite Z.ltb_irrefl, Z.eqb_refl.
      * rewrite !(filter_cons _ z), IH.
        destruct (decide (P z)) as [Hz|Hz]; destruct (decide (P y)) as [Hy|Hy]; try done.
        simpl. destruct (Z.ltb_spec y z); [lia|]. destruct (Z.eqb_spec y z); [lia|done].
Qed.

Lemma group_keys_filter (P : Z -> Prop) `{!forall y, Decision (P y)} (rs : list (row A)) :
  group_keys (filter (fun r => P (year (Date r))) rs) = filter P (group_keys rs).
Proof.
  induction rs as [|r rs IH]; [done|].
  rewrite filter_cons. cbn [group_keys foldr]. fold (group_keys rs).
  rewrite insert_year_filter by apply group_keys_sorted.
  destruct (decide (P (year (Date r)))); [|done]. simpl. by rewrite IH.
Qed.

Lemma group_rows_filter (P : Z -> Prop) `{!forall y, Decision (P y)} (y : Z) (rs : list (row A)) :
  P y -> group_rows y (filter (fun r => P (year (Date r))) rs) = group_rows y rs.
Proof.
  intros Hy. unfold group_rows. rewrite list_filter_filter.
  apply list_filter_iff. intros r. split; [by intros [? _]|].
  intros Hr. split; [done|]. by rewrite Hr.
Qed.

(** X10: restricting to a range of years and aggregating by year commute:
    the annual rows of the months of a range are the annual rows, of all the
    months, that lie in the range, with the same sums. *)
Theorem filter_years_aggregate_annual (start_year end_year : Z) (df : DataFrame A) :
  aggregate_annual (filter_years start_year end_year df)
  = filter_years start_year end_year (aggregate_annual df).
Proof.
  unfold aggregate_annual, filter_years. cbn [columns rows]. f_equal.
  pose proof (group_keys_filter (fun y => start_year <= y /\ y <= end_year) (rows df))
    as Hkeys.
  cbv beta in Hkeys. rewrite Hkeys. clear Hkeys.
  induction (group_keys (rows df)) as [|y ys IH]; [done|].
  cbn [map]. rewrite !filter_cons. cbn [annual_row Date january_first year].
  destruct (decide (start_year <= y /\ y <= end_year)) as [Hy|Hy]; [|done].
  cbn [map]. rewrite IH. f_equal. unfold annual_row. f_equal.
  pose proof (group_rows_filter (fun y => start_year <= y /\ y <= end_year) y (rows df) Hy)
    as Hrows.
  cbv beta in Hrows. by rewrite Hrows.
Qed.


(** The years of the rows of a frame all satisfy [P]. *)
Lemma aggregate_annual_years (P : Z -> Prop) (df : DataFrame A) :
  Forall (fun r => P (year (Date r))) (rows df) ->
  Forall (fun r => P (year (Date r))) (rows (aggregate_annual df)).
Proof.
  intros Hall. unfold aggregate_annual. cbn [rows].
  apply Forall_forall. intros r' Hr'.
  change (map ?f ?l) with (f <$> l) in Hr'.
  apply list_elem_of_fmap in Hr' as (y & -> & Hy). cbn.
  apply group_keys_elem in Hy as (r & Hr & <-).
  rewrite Forall_forall in Hall. by apply Hall.
Qed.

Lemma percent_mix_years (P : Z -> Prop) (df : DataFrame A) :
  Forall (fun r => P (year (Date r))) (rows df) ->
  Forall (fun r => P (year (Date r))) (rows (percent_mix df)).
Proof.
  intros Hall. unfold percent_mix. cbn [rows].
  change (map ?f ?l) with (f <$> l). apply Forall_fmap.
  eapply Forall_impl; [exact Hall|]. by intros r Hr.
Qed.

Lemma plot_frame_years (P : Z -> Prop) (time_res view_type : string)
    (year_range : Z * Z) (df_full : DataFrame A) :
  Forall (fun r => P (year (Date r)))
         (rows (filter_years (fst year_range) (snd year_range) df_full)) ->
  Forall (fun r => P (year (Date r)))
         (rows (plot_frame time_res view_type year_range df_full)).
Proof.
  intros Hall. unfold plot_frame.
  destruct (String.eqb time_res "annual"), (String.eqb view_type "percent");
    repeat first [ apply aggregate_annual_years | apply percent_mix_years ]; done.
Qed.

(** X11: whatever the time resolution and the value type, every row of
    the frame that [update_plot] draws has its year in the selected range;
    when the range ends before it starts, the frame has no row. *)
Theorem plot_frame_within_range (time_res view_type : string)
    (start_year end_year : Z) (df_full : DataFrame A) :
  Forall (fun r => start_year <= year (Date r) <= end_year)
         (rows (plot_frame time_res view_type (start_year, end_year) df_full))
  /\ (end_year < start_year ->
      rows (plot_frame time_res view_type (start_year, end_year) df_full) = []).
Proof.
  assert (Hin : Forall (fun r => start_year <= year (Date r) <= end_year)
           (rows (plot_frame time_res view_type (start_year, end_year) df_full))).
  { apply (plot_frame_years (fun y => start_year <= y <= end_year)).
    cbn [fst snd filter_years rows]. apply Forall_forall.
    by intros r [Hr _]%list_elem_of_filter. }
  split; [exact Hin|]. intros Hlt.
  destruct (rows (plot_frame _ _ _ _)) as [|r rs]; [done|].
  apply Forall_cons in Hin as [Hr _]. lia.
Qed.

Lemma plot_frame_columns (time_res view_type : string) (year_range : Z * Z)
    (df_full : DataFrame A) :
  columns (plot_frame time_res view_type year_range df_full) = columns df_full.
Proof.
  unfold plot_frame.
  by destruct (String.eqb time_res "annual"), (String.eqb view_type "percent").
Qed.

Lemma get_column_Some (col : string) (df : DataFrame A) (ys : list A) :
  get_column col df = Some ys ->
  exists j, columns df !! j = Some col /\ ys = column j (rows df).
Proof.
  unfold get_column.
  destruct (list_find (fun c => c = col) (columns df)) as [[j c]|] eqn:Hfind; [|done].
  intros [= <-]. apply list_find_Some in Hfind as (Hj & -> & _). by exists j.
Qed.

Lemma get_column_is_Some (col : string) (df : DataFrame A) :
  is_Some (get_column col df) <-> col ∈ columns df.
Proof.
  unfold get_column. split.
  - destruct (list_find (fun c => c = col) (columns df)) as [[j c]|] eqn:Hfind.
    + intros _. apply list_find_Some in Hfind as (Hj & -> & _).
      by eapply list_elem_of_lookup_2.
    + by intros [? ?].
  - intros Hin.
    destruct (list_find_elem_of (fun c => c = col) (columns df) col Hin eq_refl)
      as [[j c] ->]. by eexists.
Qed.

Lemma update_plot_spec (sources : list string) (time_res view_type : string)
    (year_range : Z * Z) (df_full : DataFrame A) :
  let df := plot_frame time_res view_type year_range df_full in
  (is_Some (update_plot sources time_res view_type year_range df_full)
   <-> sources ⊆ columns df_full)
  /\ forall lines,
       update_plot sources time_res view_type year_range df_full = Some lines ->
       map name lines = sources
       /\ Forall (fun line =>
            x line = map Date (rows df)
            /\ exists j, columns df_full !! j = Some (name line)
                         /\ y line = column j (rows df)) lines.
Proof.
  intros df.
  assert (Hcols : columns df = columns df_full) by apply plot_frame_columns.
  unfold update_plot. fold df.
  set (line_of := fun col : string =>
         match get_column col df with
         | Some ys => Some {| name := col; x := map Date (rows df); y := ys |}
         | None => None
         end).
  assert (Hmap : forall l : list string,
             (is_Some (mapM line_of l) <-> l ⊆ columns df_full)
             /\ forall lines, mapM line_of l = Some lines ->
                  map name lines = l
                  /\ Forall (fun line =>
                       x line = map Date (rows df)
                       /\ exists j, columns df_full !! j = Some (name line)
                                    /\ y line = column j (rows df)) lines).
  { intros l. split.
    - rewrite mapM_is_Some. rewrite Forall_forall. split.
      + intros Hall col Hcol. specialize (Hall col Hcol). unfold compose, line_of in Hall.
        rewrite <- Hcols. apply get_column_is_Some.
        destruct (get_column col df); [by eexists | by destruct Hall].
      + intros Hsub col Hcol. unfold compose, line_of.
        destruct (proj2 (get_column_is_Some col df)) as [ys ->]; [|by eexists].
        rewrite Hcols. by apply Hsub.
    - intros lines Hlines%mapM_Some.
      induction Hlines as [|col line l lines Hline _ IH]; [done|].
      destruct IH as [IHn IHl]. unfold line_of in Hline.
      destruct (get_column col df) as [ys|] eqn:Hcol; [|done].
      injection Hline as <-. apply get_column_Some in Hcol as (j & Hj & ->).
      split; [cbn; by rewrite IHn|]. constructor; [|done].
      cbn. split; [done|]. exists j. by rewrite <- Hcols. }
  destruct sources as [|col sources].
  - split; [split; [intros _; by intros ? ?%elem_of_nil | by eexists]|].
    by intros lines [= <-].
  - apply Hmap.
Qed.

(** X12: for a selection of sources without "Date" (which the selector
    does not offer), [update_plot] fails ([KeyError]) exactly when a selected
    source is not a column of the frame.  Otherwise it returns one line per
    selected source, in the order of the selection, each with the dates of
    the drawn frame and the values of the column of its name. *)
Theorem update_plot_lines (sources : list string) (time_res view_type : string)
    (year_range : Z * Z) (df_full : DataFrame A) :
  ("Date"%string ∉ sources) ->
  let df := plot_frame time_res view_type year_range df_full in
  (update_plot sources time_res view_type year_range df_full = None
   <-> exists col, col ∈ sources /\ (col ∉ columns df_full))
  /\ forall lines,
       update_plot sources time_res view_type year_range df_full = Some lines ->
       map name lines = sources
       /\ Forall (fun line =>
            x line = map Date (rows df)
            /\ exists j, columns df_full !! j = Some (name line)
                         /\ y line = column j (rows df)) lines.
Proof.
  intros _ df.
  destruct (update_plot_spec sources time_res view_type year_range df_full)
    as [Hsome Hlines].
  split; [|exact Hlines].
  rewrite eq_None_not_Some, Hsome. split.
  - intros Hnot.
    destruct (decide (Forall (fun col => col ∈ columns df_full) sources)) as [Hall|Hex].
    + destruct Hnot. intros col Hcol. rewrite Forall_forall in Hall. by apply Hall.
    + apply not_Forall_Exists in Hex; [|apply _].
      apply Exists_exists in Hex as (col & Hcol & Hout). by exists col.
  - intros (col & Hcol & Hout) Hsub. by apply Hout, Hsub.
Qed.

End MoreTransforms.

(** ** create_app *)

Lemma foldr_min_spec (y : Z) (ys : list Z) :
  Forall (fun z => foldr Z.min y ys <= z) (y :: ys) /\ foldr Z.min y ys ∈ y :: ys.
Proof.
  induction ys as [|z zs [IHle IHin]]; simpl.
  - split; [by repeat constructor | by left].
  - apply Forall_cons in IHle as [Hy Hzs]. split.
    + constructor; [lia|]. constructor; [lia|].
      eapply Forall_impl; [exact Hzs|]. intros v Hv. simpl in Hv. lia.
    + destruct (Z.min_spec z (foldr Z.min y zs)) as [[_ ->]|[_ ->]].
      * right. by left.
      * apply elem_of_cons in IHin as [->|Hin]; [by left|]. right. by right.
Qed.

Lemma foldr_max_spec (y : Z) (ys : list Z) :
  Forall (fun z => z <= foldr Z.max y ys) (y :: ys) /\ foldr Z.max y ys ∈ y :: ys.
Proof.
  induction ys as [|z zs [IHle IHin]]; simpl.
  - split; [by repeat constructor | by left].
  - apply Forall_cons in IHle as [Hy Hzs]. split.
    + constructor; [lia|]. constructor; [lia|].
      eapply Forall_impl; [exact Hzs|]. intros v Hv. simpl in Hv. lia.
    + destruct (Z.max_spec z (foldr Z.max y zs)) as [[_ ->]|[_ ->]].
      * apply elem_of_cons in IHin as [->|Hin]; [by left|]. right. by right.
      * right. by left.
Qed.

Lemma py_range_elem (start stop step y : Z) :
  0 < step ->
  y ∈ py_range start stop step
  <-> start <= y < stop /\ (y - start) mod step = 0.
Proof.
  intros Hstep. unfold py_range.
  change (map ?f ?l) with (f <$> l). rewrite list_elem_of_fmap.
  set (n := (stop - start + step - 1) / step).
  assert (Hn1 : step * n <= stop - start + step - 1)
    by (apply Z.mul_div_le; lia).
  assert (Hn2 : stop - start + step - 1 < step * (n + 1)).
  { pose proof (Z.mul_succ_div_gt (stop - start + step - 1) step Hstep). subst n. lia. }
  split.
  - intros (i & -> & Hi). apply elem_of_seq in Hi as [_ Hi]. simpl in Hi.
    assert (Z.of_nat i < n) by lia.
    split; [nia|].
    replace (start + step * Z.of_nat i - start) with (Z.of_nat i * step) by lia.
    by apply Z.mod_mul; lia.
  - intros [[Hlo Hhi] Hmod].
    apply Z.mod_divide in Hmod as [q Hq]; [|lia].
    assert (0 <= q) by nia. assert (q < n) by nia.
    exists (Z.to_nat q). split; [lia|].
    apply elem_of_seq. lia.
Qed.

Lemma filter_all_rows {A : Type} (P : row A -> Prop) `{!forall r, Decision (P r)}
    (rs : list (row A)) :
  Forall P rs -> filter P rs = rs.
Proof.
  induction 1 as [|r rs Hr _ IH]; [done|]. rewrite filter_cons_True by done.
  by rewrite IH.
Qed.

(** X13: [create_app] fails exactly on a frame without rows.  Otherwise
    the two bounds are years of the frame and enclose all of them; the marks
    of the two sliders are the years from the lower bound up to the upper
    one in steps of 2 and of 5; the pie starts at the upper bound; and with
    the initial values of the controls the plot draws every row of the
    frame, one line per column. *)
Theorem create_app_layout (df_full : DataFrame float) :
  (create_app df_full = None <-> rows df_full = [])
  /\ forall cfg,
       create_app df_full = Some cfg ->
       Forall (fun r => min_year cfg <= year (Date r) <= max_year cfg) (rows df_full)
       /\ (exists r, r ∈ rows df_full /\ year (Date r) = min_year cfg)
       /\ (exists r, r ∈ rows df_full /\ year (Date r) = max_year cfg)
       /\ (forall y, y ∈ map fst (year_marks cfg)
                     <-> min_year cfg <= y <= max_year cfg
                         /\ (y - min_year cfg) mod 2 = 0)
       /\ (forall y, y ∈ map fst (pie_marks cfg)
                     <-> min_year cfg <= y <= max_year cfg
                         /\ (y - min_year cfg) mod 5 = 0)
       /\ plot_frame (time_value cfg) (view_value cfg) (slider_value cfg) df_full
          = df_full
       /\ (exists lines,
             update_plot (source_value cfg) (time_value cfg) (view_value cfg)
               (slider_value cfg) df_full = Some lines
             /\ map name lines = columns df_full
             /\ Forall (fun line => x line = map Date (rows df_full)) lines)
       /\ pie_value cfg = max_year cfg.
Proof.
  unfold create_app. destruct df_full as [cols rs]. cbn [rows columns].
  destruct rs as [|r rs]; [by split|]. cbn [map].
  set (ys := map (fun r => year (Date r)) rs).
  split; [by split|]. intros cfg [= <-]. cbn.
  destruct (foldr_min_spec (year (Date r)) ys) as [Hmin Hmin_in].
  destruct (foldr_max_spec (year (Date r)) ys) as [Hmax Hmax_in].
  set (lo := foldr Z.min (year (Date r)) ys) in *.
  set (hi := foldr Z.max (year (Date r)) ys) in *.
  assert (Hall : Forall (fun r0 : row float => lo <= year (Date r0) <= hi) (r :: rs)).
  { change (year (Date r) :: ys) with (map (fun r => year (Date r)) (r :: rs)) in Hmin, Hmax.
    change (map ?f ?l) with (f <$> l) in Hmin, Hmax.
    rewrite Forall_fmap in Hmin, Hmax. rewrite Forall_forall in Hmin, Hmax.
    apply Forall_forall. intros r0 Hr0.
    specialize (Hmin r0 Hr0). specialize (Hmax r0 Hr0). simpl in *. lia. }
  assert (Hframe : plot_frame "monthly" "raw" (lo, hi) {| columns := cols; rows := r :: rs |}
                   = {| columns := cols; rows := r :: rs |}).
  { unfold plot_frame, filter_years. cbn [String.eqb fst snd columns rows]. f_equal.
    by apply filter_all_rows. }
  split; [exact Hall|]. split; [|split; [|split; [|split; [|split; [|split]]]]].
  - change (year (Date r) :: ys) with (map (fun r => year (Date r)) (r :: rs)) in Hmin_in.
    change (map ?f ?l) with (f <$> l) in Hmin_in.
    apply list_elem_of_fmap in Hmin_in as (r0 & Heq & Hr0). by exists r0.
  - change (year (Date r) :: ys) with (map (fun r => year (Date r)) (r :: rs)) in Hmax_in.
    change (map ?f ?l) with (f <$> l) in Hmax_in.
    apply list_elem_of_fmap in Hmax_in as (r0 & Heq & Hr0). by exists r0.
  - intros y0. unfold marks. rewrite map_map. cbn [fst]. rewrite map_id.
    rewrite py_range_elem by lia. split; intros [? ?]; split; (lia || done).
  - intros y0. unfold marks. rewrite map_map. cbn [fst]. rewrite map_id.
    rewrite py_range_elem by lia. split; intros [? ?]; split; (lia || done).
  - exact Hframe.
  - destruct (update_plot_spec cols "monthly" "raw" (lo, hi)
                {| columns := cols; rows := r :: rs |}) as [Hsome Hlines].
    destruct (proj2 Hsome) as [lines Hrun]; [done|].
    exists lines. split; [done|]. destruct (Hlines lines Hrun) as [Hnames Hxs].
    split; [done|]. rewrite Hframe in Hxs.
    eapply Forall_impl; [exact Hxs|]. by intros line [? _].
  - done.
Qed.
(** ** update_pie *)

Lemma filter_no_rows {A : Type} (P : row A -> Prop) `{!forall r, Decision (P r)}
    (rs : list (row A)) :
  Forall (fun r => ~ P r) rs -> filter P rs = [].
Proof.
  induction 1 as [|r rs Hr _ IH]; [done|]. by rewrite filter_cons_False.
Qed.

Lemma get_all_zero {A : Type} `{Number A} (cols : list string) (zs : list A) (k : string) :
  Forall (fun z => z = zero) zs ->
  get (list_to_map (zip cols zs)) k = zero.
Proof.
  intros Hzero. unfold get.
  destruct (list_to_map (zip cols zs) !! k) as [v|] eqn:Hk; [|done].
  apply elem_of_list_to_map_2, elem_of_zip_r in Hk.
  rewrite Forall_forall in Hzero. by apply Hzero.
Qed.

(** X14: for a year in which the frame has no row, every category of the
    pie is 0.0. *)
Theorem update_pie_empty_year (selected_year : Z) (df_full : DataFrame float) :
  Forall (fun r => year (Date r) <> selected_year) (rows df_full) ->
  update_pie selected_year df_full
  = [ ("Gas", pos_zero); ("Coal", pos_zero); ("Nuclear", pos_zero);
      ("Wind", pos_zero); ("Solar", pos_zero); ("All Others", pos_zero) ]%string.
Proof.
  intros Hnone. unfold update_pie, column_totals. cbn [columns rows].
  rewrite filter_no_rows by done.
  assert (Hzero : Forall (fun z : float => z = zero)
                         (column_sums (length (columns df_full)) [])).
  { unfold column_sums. change (map ?f ?l) with (f <$> l).
    apply Forall_fmap, Forall_forall. by intros j _. }
  unfold pie_data. rewrite !(get_all_zero _ _ _ Hzero). reflexivity.
Qed.
(** ** Exact arithmetic *)

Lemma Qc_fold_shift (l : list Qc) (a : Qc) :
  fold_left nanadd l a = (a + fold_left nanadd l 0)%Qc.
Proof.
  revert a. induction l as [|v l IH]; intros a; cbn [fold_left].
  - ring.
  - rewrite (IH (nanadd a v)). rewrite (IH (nanadd 0%Qc v)).
    change (nanadd a v) with (a + v)%Qc. change (nanadd 0%Qc v) with (0 + v)%Qc. ring.
Qed.

Lemma Qc_nansum_cons (v : Qc) (l : list Qc) : nansum (v :: l) = (v + nansum l)%Qc.
Proof.
  unfold nansum. cbn [fold_left].
  rewrite (Qc_fold_shift l (nanadd zero v)).
  change (nanadd zero v) with (0 + v)%Qc. change (@zero Qc _) with 0%Qc. ring.
Qed.

Lemma Qc_nansum_nil : nansum ([] : list Qc) = 0%Qc.
Proof. reflexivity. Qed.

Lemma Qc_nansum_map_add {K : Type} (f g : K -> Qc) (ks : list K) :
  nansum (map (fun k => f k + g k)%Qc ks) = (nansum (map f ks) + nansum (map g ks))%Qc.
Proof.
  induction ks as [|k ks IH]; cbn [map].
  - rewrite !Qc_nansum_nil. ring.
  - rewrite !Qc_nansum_cons, IH. ring.
Qed.

Lemma Qc_nansum_map_zero {K : Type} (ks : list K) :
  nansum (map (fun _ => 0%Qc) ks) = 0%Qc.
Proof.
  induction ks as [|k ks IH]; cbn [map]; [done|]. rewrite Qc_nansum_cons, IH. ring.
Qed.

Lemma Qc_nansum_indicator (y : Z) (v : Qc) (ks : list Z) :
  NoDup ks -> y ∈ ks ->
  nansum (map (fun k => if decide (y = k) then v else 0%Qc) ks) = v.
Proof.
  induction 1 as [|k ks Hk Hnd IH]; intros Hy; [inversion Hy|].
  cbn [map]. rewrite Qc_nansum_cons. destruct (decide (y = k)) as [->|Hne].
  - replace (map _ ks) with (map (fun _ : Z => 0%Qc) ks).
    + rewrite Qc_nansum_map_zero. ring.
    + apply map_ext_in. intros k' Hk'%list_elem_of_In.
      destruct (decide (k = k')) as [->|]; [done | done].
  - apply elem_of_cons in Hy as [->|Hy]; [done|]. rewrite IH by done. ring.
Qed.

(** Column [j] of an annual frame is the list of the annual sums. *)
Lemma column_annual {A : Type} `{Number A} (n j : nat) (rs : list (row A)) (ks : list Z) :
  (j < n)%nat ->
  column j (map (annual_row n rs) ks)
  = map (fun k => nansum (column j (group_rows k rs))) ks.
Proof.
  intros Hj. unfold column. induction ks as [|k ks IH]; [done|].
  cbn [map omap list_omap]. cbn [annual_row cells].
  rewrite column_sums_lookup by done. by rewrite IH.
Qed.

Lemma Qc_sum_by_year (j : nat) (rs : list (row Qc)) (ks : list Z) :
  NoDup ks ->
  Forall (fun r => year (Date r) ∈ ks) rs ->
  nansum (map (fun k => nansum (column j (group_rows k rs))) ks)
  = nansum (column j rs).
Proof.
  intros Hnd. induction 1 as [|r rs Hr _ IH].
  - apply Qc_nansum_map_zero.
  - set (v := default 0%Qc (cells r !! j)).
    assert (Hcol : nansum (column j (r :: rs)) = (v + nansum (column j rs))%Qc).
    { unfold column, v. cbn [omap list_omap].
      destruct (cells r !! j); cbn [default]; [apply Qc_nansum_cons | ring]. }
    rewrite Hcol, <- IH, <- (Qc_nansum_indicator (year (Date r)) v ks Hnd Hr).
    rewrite <- Qc_nansum_map_add. f_equal. apply map_ext. intros k.
    unfold group_rows. rewrite filter_cons.
    destruct (decide (year (Date r) = k)) as [Hk|Hk].
    + unfold column, v. cbn [omap list_omap].
      destruct (cells r !! j); cbn [default]; [apply Qc_nansum_cons | ring].
    + ring.
Qed.

(** ** aggregate_annual: one row per year *)

Lemma Qc_nansum_foldr (l : list Qc) : nansum l = foldr Qcplus 0%Qc l.
Proof.
  induction l as [|v l IH]; [reflexivity|].
  rewrite Qc_nansum_cons, IH. reflexivity.
Qed.

Lemma filter_year_rows {A : Type} (y : Z) (rs : list (row A)) :
  Forall (fun r => year (Date r) = y) (filter (fun r => year (Date r) = y) rs).
Proof. apply Forall_forall. by intros r [Hr _]%list_elem_of_filter. Qed.

(** C4: [aggregate_annual] returns one row per calendar year present in the
    input, in ascending order of year, each dated January 1 of its year.  The
    row of a year is made from the rows of that year alone: it is the single
    row that [aggregate_annual] returns for them.  In exact arithmetic its
    field [j] is the sum of the values of column [j] in the input rows of
    that year; so the rows of one year (twelve months, say) give the single
    row of their column sums.  (On floats the fields are the same sums as
    pandas rounds them.) *)
Theorem aggregate_annual_one_row_per_year :
  (forall (A : Type) (N : Number A) (df : DataFrame A),
      let out := rows (aggregate_annual df) in
      columns (aggregate_annual df) = columns df
      /\ StronglySorted Z.lt (map (fun r => year (Date r)) out)
      /\ (forall y, y ∈ map (fun r => year (Date r)) out
                    <-> exists r, r ∈ rows df /\ year (Date r) = y)
      /\ Forall (fun r' => month (Date r') = 1 /\ day (Date r') = 1
                           /\ length (cells r') = length (columns df)) out
      /\ (forall r', r' ∈ out ->
            rows (aggregate_annual
                    {| columns := columns df;
                       rows := filter (fun r => year (Date r) = year (Date r'))
                                      (rows df) |})
            = [r']))
  /\ (forall (df : DataFrame Qc) (r' : row Qc) (j : nat),
        r' ∈ rows (aggregate_annual df) -> (j < length (columns df))%nat ->
        cells r' !! j
        = Some (foldr Qcplus 0%Qc
                  (omap (fun r => cells r !! j)
                        (filter (fun r => year (Date r) = year (Date r')) (rows df)))))
  /\ (forall (df : DataFrame Qc) (y : Z),
        rows df <> [] -> Forall (fun r => year (Date r) = y) (rows df) ->
        rows (aggregate_annual df)
        = [ {| Date := {| year := y; month := 1; day := 1 |};
               cells := map (fun j => foldr Qcplus 0%Qc
                                        (omap (fun r => cells r !! j) (rows df)))
                            (seq 0 (length (columns df))) |} ]).
Proof.
  split; [|split].
  - intros A N df out. subst out. unfold aggregate_annual. cbn [columns rows].
    rewrite annual_years.
    split; [done|]. split; [apply group_keys_sorted|].
    split; [intros y; apply group_keys_elem|]. split.
    + apply Forall_forall. intros r' (y & -> & _)%list_elem_of_fmap.
      cbn. split; [done|]. split; [done | apply column_sums_length].
    + intros r' (y & -> & Hy)%list_elem_of_fmap.
      cbn [annual_row Date january_first year].
      apply group_keys_elem in Hy as (r0 & Hr0 & Hy0).
      rewrite (group_keys_one_year y).
      * cbn [map]. unfold annual_row. do 3 f_equal.
        apply group_rows_all, filter_year_rows.
      * intros Hnil. assert (Hin : r0 ∈ filter (fun r => year (Date r) = y) (rows df))
          by (by apply list_elem_of_filter).
        rewrite Hnil in Hin. by apply elem_of_nil in Hin.
      * apply filter_year_rows.
  - intros df r' j Hr' Hj. unfold aggregate_annual in Hr'. cbn [rows] in Hr'.
    apply list_elem_of_fmap in Hr' as (y & -> & _).
    cbn [annual_row Date cells january_first year].
    rewrite column_sums_lookup by done. f_equal. apply Qc_nansum_foldr.
  - intros df y Hne Hall. unfold aggregate_annual. cbn [rows].
    rewrite (group_keys_one_year y) by done. cbn [map].
    unfold annual_row. rewrite group_rows_all by done. unfold january_first.
    do 2 f_equal. unfold column_sums. apply map_ext. intros j. apply Qc_nansum_foldr.
Qed.

(** The twelve months of 1973 give one row, coal 1 + ... + 12 = 78 and dry
    gas 156.  Months of two years give two rows: the row of 1973 holds the
    sums of the months of 1973 (1 + 2 and 3 + 2), not of every month.  On
    floats, months of 1973 and 1974 in any order give the rows of 1973 (3 + 1
    and 1 + 3) and of 1974 (2 + 5 and 2 + 0). *)
Lemma aggregate_annual_one_row_per_year_witness :
  (rows Cases.exact_1973 <> []
   /\ Forall (fun r => year (Date r) = 1973) (rows Cases.exact_1973)
   /\ length (rows Cases.exact_1973) = 12%nat
   /\ map (fun r => (Date r, map this (cells r)))
          (rows (aggregate_annual Cases.exact_1973))
      = [ ({| year := 1973; month := 1; day := 1 |}, [78 # 1; 156 # 1]%Q) ])
  /\ (exists r73 r74,
        rows (aggregate_annual Cases.exact_years) = [r73; r74]
        /\ Date r73 = {| year := 1973; month := 1; day := 1 |}
        /\ Date r74 = {| year := 1974; month := 1; day := 1 |}
        /\ (this <$> cells r73 !! 0%nat) = Some (3 # 1)%Q
        /\ (this <$> cells r73 !! 1%nat) = Some (5 # 1)%Q
        /\ (this <$> cells r74 !! 0%nat) = Some (5 # 1)%Q
        /\ (this <$> cells r74 !! 1%nat) = Some (0 # 1)%Q)
  /\ rows (aggregate_annual Cases.mixed_years)
     = [ {| Date := {| year := 1973; month := 1; day := 1 |};
            cells := map of_Z [4; 4; 0; 0; 0; 0; 0; 0; 0] |};
         {| Date := {| year := 1974; month := 1; day := 1 |};
            cells := map of_Z [7; 2; 0; 0; 0; 0; 0; 0; 0] |} ].
Proof.
  destruct aggregate_annual_one_row_per_year as (_ & Hsum & Hone).
  assert (Hne : rows Cases.exact_1973 <> []) by discriminate.
  assert (Hall : Forall (fun r => year (Date r) = 1973) (rows Cases.exact_1973))
    by (repeat constructor).
  split; [|split].
  - split; [exact Hne|]. split; [exact Hall|]. split; [reflexivity|].
    rewrite (Hone Cases.exact_1973 1973 Hne Hall). reflexivity.
  - exists (annual_row 2 (rows Cases.exact_years) 1973),
           (annual_row 2 (rows Cases.exact_years) 1974).
    split; [reflexivity|]. split; [reflexivity|]. split; [reflexivity|].
    assert (H73 : annual_row 2 (rows Cases.exact_years) 1973
                  ∈ rows (aggregate_annual Cases.exact_years)) by (by left).
    assert (H74 : annual_row 2 (rows Cases.exact_years) 1974
                  ∈ rows (aggregate_annual Cases.exact_years)) by (right; by left).
    split; [|split; [|split]].
    + rewrite (Hsum Cases.exact_years _ 0%nat H73) by (cbn; lia). reflexivity.
    + rewrite (Hsum Cases.exact_years _ 1%nat H73) by (cbn; lia). reflexivity.
    + rewrite (Hsum Cases.exact_years _ 0%nat H74) by (cbn; lia). reflexivity.
    + rewrite (Hsum Cases.exact_years _ 1%nat H74) by (cbn; lia). reflexivity.
  - reflexivity.
Defined.

(** X15: in exact arithmetic, aggregation by year keeps the total of every
    column: the annual sums of a column add up to the sum of the column. *)
Theorem aggregate_annual_keeps_totals (df : DataFrame Qc) (j : nat) :
  (j < length (columns df))%nat ->
  nansum (column j (rows (aggregate_annual df))) = nansum (column j (rows df)).
Proof.
  intros Hj. unfold aggregate_annual. cbn [rows].
  rewrite column_annual by done. apply Qc_sum_by_year.
  - apply sorted_lt_NoDup, group_keys_sorted.
  - apply Forall_forall. intros r Hr. apply group_keys_elem. by exists r.
Qed.

Lemma Qc_nansum_nonneg (l : list Qc) :
  Forall (fun v => (0 <= v)%Qc) l -> (0 <= nansum l)%Qc.
Proof.
  induction 1 as [|v l Hv _ IH]; [apply Qcle_refl|].
  rewrite Qc_nansum_cons. replace 0%Qc with (0 + 0)%Qc by ring.
  by apply Qcplus_le_compat.
Qed.

Lemma Qc_elem_le_nansum (l : list Qc) (v : Qc) :
  Forall (fun v => (0 <= v)%Qc) l -> v ∈ l -> (v <= nansum l)%Qc.
Proof.
  induction 1 as [|u l Hu Hl IH]; intros Hin; [inversion Hin|].
  rewrite Qc_nansum_cons. apply elem_of_cons in Hin as [->|Hin].
  - replace u with (u + 0)%Qc at 1 by ring.
    apply Qcplus_le_compat; [apply Qcle_refl | by apply Qc_nansum_nonneg].
  - replace v with (0 + v)%Qc by ring. apply Qcplus_le_compat; [done | by apply IH].
Qed.

(** X16: in exact arithmetic, the shares of a row of non-negative values
    with a nonzero total lie between 0 and 100. *)
Theorem percent_mix_share_bounds (df : DataFrame Qc) :
  Forall (fun r => Forall (fun v => (0 <= v)%Qc) (cells r)) (rows df) ->
  Forall2 (fun r r' =>
             nansum (cells r) <> 0%Qc ->
             Forall (fun p => (0 <= p)%Qc /\ (p <= Q2Qc 100)%Qc) (cells r'))
          (rows df) (rows (percent_mix df)).
Proof.
  intros Hpos. apply percent_rows. intros r Hr Hne.
  rewrite Forall_forall in Hpos. specialize (Hpos r Hr).
  unfold percent_row. cbn [cells]. set (t := nansum (cells r)) in *.
  assert (Ht : (0 < t)%Qc).
  { destruct (Qcle_lt_or_eq _ _ (Qc_nansum_nonneg _ Hpos)) as [Hlt|Heq]; [done|].
    by destruct Hne. }
  change (map ?f ?l) with (f <$> l). apply Forall_fmap, Forall_forall.
  intros v Hv. unfold compose.
  change ((0 <= v / t * Q2Qc 100)%Qc /\ (v / t * Q2Qc 100 <= Q2Qc 100)%Qc).
  assert (Hscale : (v / t * Q2Qc 100 * t = v * Q2Qc 100)%Qc) by (field; exact Hne).
  assert (H100 : (0 <= Q2Qc 100)%Qc) by done.
  split.
  - apply (Qcmult_lt_0_le_reg_r _ _ t Ht). rewrite Hscale, Qcmult_0_l.
    replace 0%Qc with (0 * Q2Qc 100)%Qc by ring.
    apply Qcmult_le_compat_r; [|done]. rewrite Forall_forall in Hpos. by apply Hpos.
  - apply (Qcmult_lt_0_le_reg_r _ _ t Ht). rewrite Hscale.
    rewrite (Qcmult_comm (Q2Qc 100) t).
    apply Qcmult_le_compat_r; [|done]. by apply Qc_elem_le_nansum.
Qed.

(** X17: in exact arithmetic, the six categories of the pie add up to
    the sum of the nine columns Coal, GasDry, GasLiquid, Nuclear, Hydro,
    Geothermal, Solar, Wind and Biomass: each of them is counted once. *)
Theorem pie_data_keeps_total (totals : gmap string Qc) :
  nansum (map snd (pie_data totals))
  = nansum (map (get totals)
      ["Coal"; "GasDry"; "GasLiquid"; "Nuclear"; "Hydro"; "Geothermal"; "Solar";
       "Wind"; "Biomass"]%string).
Proof.
  unfold pie_data. cbn [map snd]. rewrite !Qc_nansum_cons, !Qc_nansum_nil.
  change (@add Qc _) with Qcplus. ring.
Qed.

(** A frame that is already annual. *)
Lemma group_rows_unique {A : Type} (rs : list (row A)) (r : row A) :
  NoDup (map (fun r => year (Date r)) rs) -> r ∈ rs ->
  group_rows (year (Date r)) rs = [r].
Proof.
  unfold group_rows. induction rs as [|a rs IH]; intros Hnd Hr; [inversion Hr|].
  cbn [map] in Hnd. apply NoDup_cons in Hnd as [Ha Hnd].
  apply elem_of_cons in Hr as [->|Hr].
  - rewrite filter_cons_True by done. f_equal. apply filter_no_rows.
    apply Forall_forall. intros b Hb Heq. apply Ha.
    change (map ?f ?l) with (f <$> l). apply list_elem_of_fmap. by exists b.
  - rewrite filter_cons_False; [by apply IH|].
    intros Heq. apply Ha. change (map ?f ?l) with (f <$> l).
    apply list_elem_of_fmap. by exists r.
Qed.

Lemma aggregate_annual_shaped {A : Type} `{Number A} (df : DataFrame A) :
  StronglySorted Z.lt (map (fun r => year (Date r)) (rows df)) ->
  Forall (fun r => Date r = january_first (year (Date r))
                   /\ length (cells r) = length (columns df)) (rows df) ->
  aggregate_annual df = {| columns := columns df; rows := map resum_row (rows df) |}.
Proof.
  intros Hsorted Hshape. unfold aggregate_annual. f_equal.
  rewrite group_keys_fold, insert_all_sorted by done.
  rewrite map_map. apply map_ext_Forall.
  pose proof (sorted_lt_NoDup _ Hsorted) as Hnd.
  apply Forall_forall. intros r Hr.
  rewrite Forall_forall in Hshape. destruct (Hshape r Hr) as [Hdate Hlen].
  unfold annual_row, resum_row. rewrite <- Hdate. f_equal.
  rewrite group_rows_unique by done. by apply column_sums_single.
Qed.

(** X18: in exact arithmetic the repeated steps of [update_plot] change
    nothing: the annual frame is the annual aggregate, and the percentage
    frames are the percentages of the monthly rows, and of the annual
    aggregate, as long as no row that is normalised has total zero. *)
Theorem plot_frame_exact (year_range : Z * Z) (df_full : DataFrame Qc) :
  let df := filter_years (fst year_range) (snd year_range) df_full in
  plot_frame "annual" "raw" year_range df_full = aggregate_annual df
  /\ (Forall (fun r => nansum (cells r) <> 0%Qc) (rows df) ->
      plot_frame "monthly" "percent" year_range df_full = percent_mix df)
  /\ (Forall (fun r => nansum (cells r) <> 0%Qc) (rows (aggregate_annual df)) ->
      plot_frame "annual" "percent" year_range df_full
      = percent_mix (aggregate_annual df)).
Proof.
  intros df.
  assert (Hresum : forall rs : list (row Qc), map resum_row rs = rs).
  { intros rs. apply resum_rows_id. apply Forall_forall. intros r _.
    apply Forall_forall. intros s _. apply Qc_add_zero_l. }
  assert (Htwice : forall X : DataFrame Qc,
             Forall (fun r => nansum (cells r) <> 0%Qc) (rows X) ->
             percent_mix (percent_mix X) = percent_mix X).
  { intros X HX. unfold percent_mix. cbn [columns rows]. f_equal.
    rewrite map_map. apply map_ext_Forall.
    eapply Forall_impl; [exact HX|]. intros r Hr. by apply Qc_percent_row_twice. }
  unfold plot_frame. cbn [String.eqb Ascii.eqb Bool.eqb]. fold df.
  split; [|split].
  - rewrite aggregate_annual_again, Hresum. reflexivity.
  - exact (Htwice df).
  - intros Hne. rewrite <- (Htwice (aggregate_annual df) Hne) at 2. f_equal.
    rewrite aggregate_annual_shaped.
    + rewrite Hresum. reflexivity.
    + unfold percent_mix, aggregate_annual. cbn [rows]. rewrite !map_map. cbn.
      rewrite map_id. apply group_keys_sorted.
    + unfold percent_mix, aggregate_annual. cbn [rows columns].
      rewrite map_map. change (map ?f ?l) with (f <$> l).
      apply Forall_fmap, Forall_forall. intros y _.
      unfold compose. cbn [Date cells percent_row annual_row january_first year].
      split; [done|]. by rewrite length_map, column_sums_length.
Qed.

(** ** Evaluations at concrete inputs *)

Lemma missing_header_raises_witness :
  files Cases.short_world !! "Mix.xlsx"%string = Some Cases.short_sheet
  /\ ~ (map fst ReadExcel.columns_mapping ⊆ headers Cases.short_sheet)
  /\ exists k,
       k ∈ map fst ReadExcel.columns_mapping
       /\ (k ∉ headers Cases.short_sheet)
       /\ UpdateSQLite.main Samples.parse_decimal Cases.short_world
          = (Raise (KeyError k), Cases.short_world).
Proof.
  assert (Hout : ~ (map fst ReadExcel.columns_mapping ⊆ headers Cases.short_sheet)).
  { intros Hsub.
    assert (Hin : "Coal Production"%string ∈ headers Cases.short_sheet)
      by (apply Hsub; by left).
    rewrite list_elem_of_In in Hin. simpl in Hin.
    repeat (destruct Hin as [Hin|Hin]; [discriminate Hin|]). exact Hin. }
  split; [reflexivity|]. split; [exact Hout|].
  exact (missing_header_raises Samples.parse_decimal "Mix.xlsx" "Energy.db"
           Cases.short_world Cases.short_sheet eq_refl Hout).
Defined.


Lemma legacy_tables (k : string) :
  is_Some (Py.database_of "Energy.db" Cases.legacy_world !! k) ->
  k = "mix"%string \/ k = "Prices"%string.
Proof.
  intros [t Ht].
  change (({[ "mix"%string := Cases.old_table; "Prices"%string := Cases.price_table ]}
           : gmap string table) !! k = Some t) in Ht.
  apply lookup_insert_Some in Ht as [[<- _]|[_ Ht]]; [by left|].
  apply lookup_singleton_Some in Ht as [<- _]. by right.
Qed.

(** The database holds a table stored as "mix" and the sheet a negative
    zero: the run drops the table, keeps the table of prices and stores the
    zero as 0.0. *)
Lemma ingestion_succeeds_witness :
  ReadExcel.__init__ Samples.parse_decimal "Mix.xlsx" Cases.legacy_world
  = (Ok Cases.signed_zero_frame, Cases.legacy_world)
  /\ NoDup (map Date (rows Cases.signed_zero_frame))
  /\ exists w1,
       UpdateSQLite.main Samples.parse_decimal Cases.legacy_world = (Ok tt, w1)
       /\ Py.database_of "Energy.db" w1 !! "EnergyMix"%string
          = Some {| schema := ["Date"; "Coal"; "GasDry"; "GasLiquid"; "CrudeOil";
                               "Nuclear"; "Hydro"; "Geothermal"; "Solar"; "Wind";
                               "Biomass"]%string;
                    primary_key := true;
                    records := Cases.stored_rows |}
       /\ Py.database_of "Energy.db" w1 !! "mix"%string = None
       /\ Py.database_of "Energy.db" w1 !! "Prices"%string = Some Cases.price_table
       /\ stdout w1 = ["SQLite table 'EnergyMix' updated successfully."%string].
Proof.
  assert (Hdates : NoDup (map Date (rows Cases.signed_zero_frame))).
  { apply NoDup_cons. split; [by intros ?%elem_of_nil | apply NoDup_nil_2]. }
  assert (Hdistinct : forall a b,
             is_Some (Py.database_of "Energy.db" Cases.legacy_world !! a) ->
             is_Some (Py.database_of "Energy.db" Cases.legacy_world !! b) ->
             Lib.fold_case a = Lib.fold_case b -> a = b).
  { intros a b [->| ->]%legacy_tables [->| ->]%legacy_tables; done. }
  assert (Hfree : forall k,
             is_Some (Py.database_of "Energy.db" Cases.legacy_world !! k) ->
             Lib.fold_case k <> "energymix"%string).
  { intros k [->| ->]%legacy_tables; discriminate. }
  split; [reflexivity|]. split; [exact Hdates|].
  destruct (ingestion_succeeds Samples.parse_decimal "Mix.xlsx" "Energy.db"
              Cases.legacy_world Cases.signed_zero_frame eq_refl Hdistinct Hfree Hdates)
    as (w1 & Hrun & Htable & Hmix & Hother & Hout & _).
  exists w1. split; [exact Hrun|]. split; [exact Htable|].
  split; [by apply Hmix|]. split; [|exact Hout].
  rewrite Hother by done. reflexivity.
Defined.

Lemma duplicate_dates_raise_witness :
  ~ NoDup (map Date (rows (Samples.frame
             [Samples.month_row 1973 1 []; Samples.month_row 1973 1 []])))
  /\ exists e w1,
       UpdateSQLite.main Samples.parse_decimal Cases.duplicate_world = (Raise e, w1)
       /\ Py.database_of "Energy.db" w1 !! "EnergyMix"%string
          = Some {| schema := ["Date"; "Coal"; "GasDry"; "GasLiquid"; "CrudeOil";
                               "Nuclear"; "Hydro"; "Geothermal"; "Solar"; "Wind";
                               "Biomass"]%string;
                    primary_key := true;
                    records := [] |}
       /\ stdout w1 = [].
Proof.
  assert (Hdup : forall d : date, ~ NoDup [d; d]).
  { intros d Hnd. apply NoDup_cons in Hnd as [Hd _]. apply Hd. by left. }
  assert (Hfree : forall k,
             is_Some (Py.database_of "Energy.db" Cases.duplicate_world !! k) ->
             Lib.fold_case k <> "energymix"%string).
  { intros k [t Ht]. change ((∅ : gmap string table) !! k = Some t) in Ht.
    by rewrite lookup_empty in Ht. }
  split; [apply Hdup|].
  exact (duplicate_dates_raise Samples.parse_decimal "Mix.xlsx" "Energy.db"
           Cases.duplicate_world _ eq_refl Hfree (Hdup Samples.january_1973)).
Defined.

(** The run on the database made by hand leaves the table of prices as it
    was. *)
Lemma ingestion_touches_two_tables_witness :
  Lib.fold_case "Prices" <> "mix"%string
  /\ Lib.fold_case "Prices" <> "energymix"%string
  /\ files (snd (UpdateSQLite.main Samples.parse_decimal Cases.legacy_world))
     = files Cases.legacy_world
  /\ Py.database_of "Energy.db"
       (snd (UpdateSQLite.main Samples.parse_decimal Cases.legacy_world))
     !! "Prices"%string
     = Some Cases.price_table.
Proof.
  assert (Hmix : Lib.fold_case "Prices" <> "mix"%string) by discriminate.
  assert (Hem : Lib.fold_case "Prices" <> "energymix"%string) by discriminate.
  split; [exact Hmix|]. split; [exact Hem|].
  pose proof (ingestion_touches_two_tables Samples.parse_decimal "Mix.xlsx" "Energy.db"
                Cases.legacy_world) as Hframe.
  cbv zeta in Hframe. destruct Hframe as (Hfiles & _ & Htables).
  split; [exact Hfiles|].
  unfold UpdateSQLite.main. rewrite (Htables "Prices"%string Hmix Hem). reflexivity.
Defined.

(** The negative zero of the sheet comes back as 0.0. *)
Lemma load_after_ingestion_witness :
  exists w1 w2,
    UpdateSQLite.main Samples.parse_decimal Cases.legacy_world = (Ok tt, w1)
    /\ ReadExcel.__init__ Samples.parse_decimal "Mix.xlsx" Cases.legacy_world
       = (Ok Cases.signed_zero_frame, Cases.legacy_world)
    /\ load_data w1
       = (Ok {| columns := ["Coal"; "GasDry"; "GasLiquid"; "Nuclear"; "Hydro";
                            "Geothermal"; "Solar"; "Wind"; "Biomass"]%string;
                rows := [ {| Date := Samples.january_1973;
                             cells := pos_zero :: map of_Z [2; 3; 5; 6; 7; 8; 9; 10] |} ] |},
          w2).
Proof.
  eexists.
  assert (Hrun : UpdateSQLite.main Samples.parse_decimal Cases.legacy_world
                 = (Ok tt, snd (UpdateSQLite.main Samples.parse_decimal
                                  Cases.legacy_world))) by reflexivity.
  destruct (load_after_ingestion Samples.parse_decimal _ _ Hrun)
    as (df & w2 & Hread & Hload).
  exists w2. split; [exact Hrun|]. split; [reflexivity|].
  assert (Hdf : df = Cases.signed_zero_frame).
  { assert (Heq : (Ok df, Cases.legacy_world)
                  = (Ok Cases.signed_zero_frame, Cases.legacy_world))
      by (rewrite <- Hread; reflexivity).
    by injection Heq. }
  subst df. exact Hload.
Defined.

Lemma load_data_without_crude_oil_witness :
  exists t,
    Py.database_of "Energy.db" Cases.loaded_world !! "EnergyMix"%string = Some t
    /\ NoDup (tail (schema t))
    /\ exists df w',
         load_data Cases.loaded_world = (Ok df, w')
         /\ df = drop_column "CrudeOil"
                   {| columns := tail (schema t); rows := records t |}
         /\ ("CrudeOil"%string ∉ columns df)
         /\ map Date (rows df) = map Date (records t)
         /\ Py.database_of "Energy.db" w'
            = Py.database_of "Energy.db" Cases.loaded_world.
Proof.
  eexists. split; [reflexivity|].
  assert (Hnd : NoDup (map snd ReadExcel.columns_mapping)).
  { apply (bool_decide_unpack (NoDup (map snd ReadExcel.columns_mapping))).
    vm_compute. exact I. }
  split; [exact Hnd|].
  exact (load_data_without_crude_oil Cases.loaded_world _ eq_refl Hnd).
Defined.

(** The database made by hand has tables, none of them named EnergyMix in
    any case. *)
Lemma load_data_without_table_witness :
  (forall k, is_Some (Py.database_of "Energy.db" Cases.legacy_world !! k) ->
             Lib.fold_case k <> "energymix"%string)
  /\ exists msg w',
       load_data Cases.legacy_world = (Raise (DatabaseError msg), w')
       /\ Py.database_of "Energy.db" w' = Py.database_of "Energy.db" Cases.legacy_world
       /\ stdout w' = stdout Cases.legacy_world.
Proof.
  assert (Hfree : forall k,
             is_Some (Py.database_of "Energy.db" Cases.legacy_world !! k) ->
             Lib.fold_case k <> "energymix"%string).
  { intros k [->| ->]%legacy_tables; discriminate. }
  split; [exact Hfree|].
  exact (load_data_without_table Cases.legacy_world Hfree).
Defined.

Lemma plot_frame_within_range_witness :
  1973 < 1974
  /\ rows (plot_frame "annual" "percent" (1974, 1973) Cases.several_years) = []
  /\ map (fun r => year (Date r))
         (rows (plot_frame "annual" "raw" (1974, 1976) Cases.several_years))
     = [1974; 1976].
Proof.
  split; [lia|]. split; [|reflexivity].
  apply (plot_frame_within_range "annual" "percent" 1974 1973 Cases.several_years).
  lia.
Defined.

Lemma update_plot_lines_witness :
  exists lines,
    update_plot ["GasDry"; "Coal"]%string "monthly" "raw" (1973, 1974)
      Cases.several_years = Some lines
    /\ map name lines = ["GasDry"; "Coal"]%string
    /\ Forall (fun line =>
         x line = [ {| year := 1974; month := 6; day := 1 |};
                    {| year := 1973; month := 1; day := 1 |} ]) lines
    /\ update_plot ["Coal"; "CrudeOil"]%string "monthly" "raw" (1973, 1974)
         Cases.several_years = None.
Proof.
  assert (Hout : forall l : list string,
             Forall (fun col => col <> "Date"%string) l -> "Date"%string ∉ l).
  { intros l Hl Hin. rewrite Forall_forall in Hl. by apply (Hl _ Hin). }
  destruct (update_plot_lines ["GasDry"; "Coal"]%string "monthly" "raw" (1973, 1974)
              Cases.several_years) as [_ Hlines].
  { apply Hout. repeat constructor; discriminate. }
  destruct (update_plot_lines ["Coal"; "CrudeOil"]%string "monthly" "raw" (1973, 1974)
              Cases.several_years) as [Hnone _].
  { apply Hout. repeat constructor; discriminate. }
  eexists. split; [reflexivity|].
  destruct (Hlines _ eq_refl) as [Hnames Hxs].
  split; [exact Hnames|]. split.
  - eapply Forall_impl; [exact Hxs|]. intros line [Hx _]. exact Hx.
  - apply Hnone. exists "CrudeOil"%string. split; [right; by left|].
    rewrite list_elem_of_In. simpl. intros Hin.
    repeat (destruct Hin as [Hin|Hin]; [discriminate Hin|]). exact Hin.
Defined.

Lemma create_app_layout_witness :
  exists cfg,
    create_app Cases.several_years = Some cfg
    /\ min_year cfg = 1973 /\ max_year cfg = 1976
    /\ year_marks cfg = [(1973, "1973"); (1975, "1975")]%string
    /\ Forall (fun r => min_year cfg <= year (Date r) <= max_year cfg)
              (rows Cases.several_years)
    /\ plot_frame (time_value cfg) (view_value cfg) (slider_value cfg)
         Cases.several_years = Cases.several_years.
Proof.
  eexists. split; [reflexivity|].
  destruct (create_app_layout Cases.several_years) as [_ Hcfg].
  destruct (Hcfg _ eq_refl) as (Hall & _ & _ & _ & _ & Hframe & _).
  split; [reflexivity|]. split; [reflexivity|]. split; [reflexivity|].
  split; [exact Hall | exact Hframe].
Defined.

Lemma update_pie_empty_year_witness :
  Forall (fun r => year (Date r) <> 1980) (rows Cases.several_years)
  /\ update_pie 1980 Cases.several_years
     = [ ("Gas", pos_zero); ("Coal", pos_zero); ("Nuclear", pos_zero);
         ("Wind", pos_zero); ("Solar", pos_zero); ("All Others", pos_zero) ]%string.
Proof.
  assert (Hnone : Forall (fun r => year (Date r) <> 1980) (rows Cases.several_years))
    by (repeat constructor; discriminate).
  split; [exact Hnone|].
  exact (update_pie_empty_year 1980 Cases.several_years Hnone).
Defined.

Lemma aggregate_annual_keeps_totals_witness :
  (0 < length (columns Cases.exact_years))%nat
  /\ map this (column 0 (rows (aggregate_annual Cases.exact_years)))
     = [(3 # 1)%Q; (5 # 1)%Q]
  /\ map this (column 0 (rows Cases.exact_years)) = [(1 # 1)%Q; (5 # 1)%Q; (2 # 1)%Q]
  /\ nansum (column 0 (rows (aggregate_annual Cases.exact_years)))
     = nansum (column 0 (rows Cases.exact_years)).
Proof.
  assert (Hj : (0 < length (columns Cases.exact_years))%nat) by (simpl; lia).
  split; [exact Hj|]. split; [reflexivity|]. split; [reflexivity|].
  exact (aggregate_annual_keeps_totals Cases.exact_years 0 Hj).
Defined.

Lemma percent_mix_share_bounds_witness :
  Forall (fun r => Forall (fun v => (0 <= v)%Qc) (cells r)) (rows Samples.exact_month)
  /\ nansum [Q2Qc 1; Q2Qc 3] <> 0%Qc
  /\ Forall (fun p => (0 <= p)%Qc /\ (p <= Q2Qc 100)%Qc)
            (cells (percent_row
               {| Date := Samples.january_1973; cells := [Q2Qc 1; Q2Qc 3] |})).
Proof.
  assert (Hpos : Forall (fun r => Forall (fun v => (0 <= v)%Qc) (cells r))
                        (rows Samples.exact_month)).
  { repeat constructor; discriminate. }
  assert (Hne : nansum [Q2Qc 1; Q2Qc 3] <> 0%Qc).
  { intros Heq. apply (f_equal this) in Heq. vm_compute in Heq. discriminate. }
  split; [exact Hpos|]. split; [exact Hne|].
  pose proof (percent_mix_share_bounds Samples.exact_month Hpos) as Hall.
  apply Forall2_cons_1 in Hall as [Hrow _]. exact (Hrow Hne).
Defined.

Lemma plot_frame_exact_witness :
  Forall (fun r => nansum (cells r) <> 0%Qc)
         (rows (aggregate_annual (filter_years 1973 1974 Cases.exact_years)))
  /\ plot_frame "annual" "percent" (1973, 1974) Cases.exact_years
     = percent_mix (aggregate_annual (filter_years 1973 1974 Cases.exact_years)).
Proof.
  assert (Hne : Forall (fun r => nansum (cells r) <> 0%Qc)
                  (rows (aggregate_annual (filter_years 1973 1974 Cases.exact_years)))).
  { repeat constructor; intros Heq; apply (f_equal this) in Heq;
      vm_compute in Heq; discriminate. }
  split; [exact Hne|].
  destruct (plot_frame_exact (1973, 1974) Cases.exact_years) as (_ & _ & Hannual).
  exact (Hannual Hne).
Defined.
